(** * Survey-configuration scripts of sims_featureScheduler_runs3.0

    A shallow embedding of the two run scripts

      - [draft2_updated/draft2_uzy_named.py]
      - [euclid_south/euclid_smudge.py]

    The scripts assemble lists of (basis function, weight) pairs, wrap them in
    survey objects and hand the survey tiers to the simulation driver of the
    scheduling library.  Objects of that library are records of what their
    constructors were called with: a class name and the keyword arguments, in
    the order the script writes them.  Python exceptions are the [Raise]
    branch of [result]; statements run in program order, so the first
    exception reached is the one that propagates. *)

From Stdlib Require Import ZArith QArith Qround Ascii String List DecimalString.
From stdpp Require Import gmap strings list.

(** ** Exceptions and fallible computations *)

Inductive exn :=
| AttributeError
| KeyError
| ValueError
| IndexError
| CalledProcessError
| FileNotFoundError
| SystemExit
| LibraryError (name : string).

Global Instance exn_eq_dec : EqDecision exn.
Proof. solve_decision. Defined.

Inductive result (A : Type) :=
| OK (a : A)
| Raise (e : exn).
Arguments OK {A} a.
Arguments Raise {A} e.

Global Instance result_ret : MRet result := λ A a, OK a.
Global Instance result_bind : MBind result := λ A B f m,
  match m with
  | OK a => f a
  | Raise e => Raise e
  end.
Global Instance result_fmap : FMap result := λ A B f m,
  match m with
  | OK a => OK (f a)
  | Raise e => Raise e
  end.

Definition is_OK {A} (m : result A) : Prop := ∃ a, m = OK a.

(** [try: body except e => handler]: the [except] clause runs only for the
    named exception class, anything else keeps propagating. *)
Definition try_except {A} (body : result A) (cls : exn) (handler : result A)
  : result A :=
  match body with
  | OK a => OK a
  | Raise e => if decide (e = cls) then handler else Raise e
  end.

(** A [for] loop that appends one object per iteration. *)
Definition for_each {A B} (body : A → result B) (l : list A) : result (list B) :=
  mapM body l.

(** ** Python numbers

    An [int] or a [float].  Floats are read as the rational they denote; the
    scripts only halve, double and compare them, and round one quotient. *)

Inductive num :=
| Int (z : Z)
| Float (q : Q).

Definition numQ (n : num) : Q :=
  match n with
  | Int z => inject_Z z
  | Float q => q
  end.

(** Python [==] on numbers: [3 == 3.0]. *)
Definition num_eqv (a b : num) : Prop := (numQ a == numQ b)%Q.

(** [a / b] is true division and always yields a float. *)
Definition truediv (a b : num) : num := Float (numQ a / numQ b).

(** [a * b] stays an [int] only when both operands are. *)
Definition num_mul (a b : num) : num :=
  match a, b with
  | Int x, Int y => Int (x * y)
  | _, _ => Float (numQ a * numQ b)
  end.

Definition num_neg (a : num) : num :=
  match a with
  | Int x => Int (- x)
  | Float q => Float (- q)
  end.

Definition is_int (n : num) : bool :=
  match n with Int _ => true | Float _ => false end.

(** [np.array(l)] of a list of numbers: one float makes every entry a float. *)
Definition np_array (l : list num) : list num :=
  if forallb is_int l then l else map (λ n, Float (numQ n)) l.

Definition num_min (a b : num) : num := if Qle_bool (numQ a) (numQ b) then a else b.
Definition num_max (a b : num) : num := if Qle_bool (numQ a) (numQ b) then b else a.

(** [np.min] and [np.max] raise [ValueError] on an empty sequence. *)
Definition np_min (l : list num) : result num :=
  match np_array l with
  | [] => Raise ValueError
  | x :: xs => OK (fold_left num_min xs x)
  end.

Definition np_max (l : list num) : result num :=
  match np_array l with
  | [] => Raise ValueError
  | x :: xs => OK (fold_left num_max xs x)
  end.

(** ** Python values

    What the scripts pass around: numbers, strings, lists, [None], and
    objects of the scheduling library.  A library object that the script
    only receives is a [VObj] handle; one that the script obtains from a
    library call is kept as that call. *)

#[warnings="-register-all"]
Inductive pyval :=
| VNone
| VBool (b : bool)
| VNum (n : num)
| VNaN                                         (* np.nan *)
| VStr (s : string)
| VBytes (s : string)
| VList (l : list pyval)
| VObj (id : string)
| VGetFootprint (fp : pyval) (filtername : string)
| VEclipticTarget (nside dist_to_eclip dec_max : num) (mask : pyval)
| VConstantFootprint (entries : list (string * pyval)).

Definition kwargs := list (string * pyval).

(** [footprints.get_footprint(filtername)]: an attribute lookup, which only
    an object answers. *)
Definition get_footprint (footprints : pyval) (filtername : string) : result pyval :=
  match footprints with
  | VObj _ | VConstantFootprint _ => OK (VGetFootprint footprints filtername)
  | _ => Raise AttributeError
  end.

(** [rubin_sim.scheduler.basis_functions], imported as [bf]. *)
Module bf.
Inductive class :=
| M5DiffBasisFunction
| FootprintBasisFunction
| SlewtimeBasisFunction
| StrictFilterBasisFunction
| VisitRepeatBasisFunction
| NObsPerYearBasisFunction
| NGoodSeeingBasisFunction
| AvoidLongGapsBasisFunction
| TimeToScheduledBasisFunction
| ZenithShadowMaskBasisFunction
| MoonAvoidanceBasisFunction
| FilterLoadedBasisFunction
| TimeToTwilightBasisFunction
| NotTwilightBasisFunction
| PlanetMaskBasisFunction
| NightModuloBasisFunction
| NearSunTwilightBasisFunction
| SolarElongationMaskBasisFunction
| SunAltHighLimitBasisFunction.

Global Instance class_eq_dec : EqDecision class.
Proof. solve_decision. Defined.

Record obj := new { cls : class; kw : kwargs }.
End bf.

(** [rubin_sim.scheduler.detailers]. *)
Module detailers.
Inductive class :=
| CameraRotDetailer
| Rottep2RotspDesiredDetailer
| CloseAltDetailer
| FlushForSchedDetailer
| TakeAsPairsDetailer
| FilterNexp
| TwilightTripleDetailer
| DitherDetailer
| EuclidDitherDetailer.

Global Instance class_eq_dec : EqDecision class.
Proof. solve_decision. Defined.

Record obj := new { cls : class; kw : kwargs }.
End detailers.

(** [GreedySurvey(basis_functions, weights, ..., detailers=..., ...)] and
    [BlobSurvey(...)]: the two positional lists, the detailer list, and the
    remaining keyword arguments (explicit ones first, then the unpacked
    parameter dictionary). *)
Module surveys.
Inductive class := GreedySurvey | BlobSurvey.

Record obj := new {
  cls : class;
  basis_functions : list bf.obj;
  weights : list num;
  detailers : list detailers.obj;
  kw : kwargs
}.
End surveys.

(** The entries of a survey's lists that belong to one basis-function class,
    with their weights, in list order. *)
Definition entries_of (c : bf.class) (s : surveys.obj) : list (bf.obj * num) :=
  filter (λ p, bf.cls p.1 = c) (zip (surveys.basis_functions s) (surveys.weights s)).

(** ** gen_GreedySurveys

    The keyword arguments, with the defaults of the [def] line. *)

Record greedy_args := {
  g_nside : num;
  g_nexp : num;
  g_exptime : num;
  g_filters : list string;
  g_camera_rot_limits : list num;
  g_shadow_minutes : num;
  g_max_alt : num;
  g_moon_distance : num;
  g_ignore_obs : pyval;
  g_m5_weight : num;
  g_footprint_weight : num;
  g_slewtime_weight : num;
  g_stayfilter_weight : num;
  g_repeat_weight : num;
  g_footprints : pyval
}.

Definition greedy_defaults : greedy_args := {|
  g_nside := Int 32;
  g_nexp := Int 2;
  g_exptime := Float 30;
  g_filters := ["r"; "i"; "z"; "y"];
  g_camera_rot_limits := [Float (-80); Float 80];
  g_shadow_minutes := Float 60;
  g_max_alt := Float 76;
  g_moon_distance := Float 30;
  g_ignore_obs := VList [VStr "DD"; VStr "twilight_neo"];
  g_m5_weight := Float 3;
  g_footprint_weight := Float 0.75;
  g_slewtime_weight := Float 3;
  g_stayfilter_weight := Float 3;
  g_repeat_weight := Float (-1);
  g_footprints := VNone
|}.

(** The detailer list built before the loop; every survey of the call gets
    this one list. *)
Definition greedy_detailer_list (a : greedy_args) : result (list detailers.obj) :=
  min_rot ← np_min (g_camera_rot_limits a);
  max_rot ← np_max (g_camera_rot_limits a);
  let detailer_list :=
    [detailers.new detailers.CameraRotDetailer
       [("min_rot", VNum min_rot); ("max_rot", VNum max_rot)]] in
  let detailer_list :=
    detailer_list ++ [detailers.new detailers.Rottep2RotspDesiredDetailer []] in
  OK detailer_list.

(** The [bfs] list of one loop iteration (the same statements in both
    scripts). *)
Definition greedy_bfs (a : greedy_args) (filtername : string) : list (bf.obj * num) :=
  let nside := g_nside a in
  let bfs := [] in
  let bfs := bfs ++ [(bf.new bf.M5DiffBasisFunction
                        [("filtername", VStr filtername); ("nside", VNum nside)],
                      g_m5_weight a)] in
  let bfs := bfs ++ [(bf.new bf.FootprintBasisFunction
                        [("filtername", VStr filtername);
                         ("footprint", g_footprints a);
                         ("out_of_bounds_val", VNaN); ("nside", VNum nside)],
                      g_footprint_weight a)] in
  let bfs := bfs ++ [(bf.new bf.SlewtimeBasisFunction
                        [("filtername", VStr filtername); ("nside", VNum nside)],
                      g_slewtime_weight a)] in
  let bfs := bfs ++ [(bf.new bf.StrictFilterBasisFunction
                        [("filtername", VStr filtername)],
                      g_stayfilter_weight a)] in
  let bfs := bfs ++ [(bf.new bf.VisitRepeatBasisFunction
                        [("gap_min", VNum (Int 0));
                         ("gap_max", VNum (num_mul (Int 2) (Float 60)));
                         ("filtername", VNone);
                         ("nside", VNum nside); ("npairs", VNum (Int 20))],
                      g_repeat_weight a)] in
  (* Masks, give these 0 weight *)
  let bfs := bfs ++ [(bf.new bf.ZenithShadowMaskBasisFunction
                        [("nside", VNum nside);
                         ("shadow_minutes", VNum (g_shadow_minutes a));
                         ("max_alt", VNum (g_max_alt a))],
                      Int 0)] in
  let bfs := bfs ++ [(bf.new bf.MoonAvoidanceBasisFunction
                        [("nside", VNum nside);
                         ("moon_distance", VNum (g_moon_distance a))],
                      Int 0)] in
  let bfs := bfs ++ [(bf.new bf.FilterLoadedBasisFunction
                        [("filternames", VStr filtername)],
                      Int 0)] in
  let bfs := bfs ++ [(bf.new bf.PlanetMaskBasisFunction
                        [("nside", VNum nside)],
                      Int 0)] in
  bfs.

Definition greed_survey_params : kwargs :=
  [("block_size", VNum (Int 1)); ("smoothing_kernel", VNone);
   ("seed", VNum (Int 42)); ("camera", VStr "LSST"); ("dither", VBool true)].

(** ** generate_blobs *)

(** [d[k]] on a dictionary. *)
Definition getitem {V} (d : gmap string V) (k : string) : result V :=
  match d !! k with
  | Some v => OK v
  | None => Raise KeyError
  end.

Record blobs_args := {
  b_nside : num;
  b_nexp : num;
  b_exptime : num;
  b_filter1s : list string;
  b_filter2s : list (option string);
  b_pair_time : num;
  b_camera_rot_limits : list num;
  b_n_obs_template : num;
  b_season : num;
  b_season_start_hour : num;
  b_season_end_hour : num;
  b_shadow_minutes : num;
  b_max_alt : num;
  b_moon_distance : num;
  b_ignore_obs : pyval;
  b_m5_weight : num;
  b_footprint_weight : num;
  b_slewtime_weight : num;
  b_stayfilter_weight : num;
  b_template_weight : num;
  b_u_template_weight : num;
  b_footprints : pyval;
  b_u_nexp1 : bool;
  b_scheduled_respect : num;
  b_good_seeing : gmap string num;
  b_good_seeing_weight : num;
  b_mjd_start : num;
  b_repeat_weight : num
}.

Definition blobs_defaults (nside : num) : blobs_args := {|
  b_nside := nside;
  b_nexp := Int 2;
  b_exptime := Float 30;
  b_filter1s := ["u"; "u"; "g"; "r"; "i"; "z"; "y"];
  b_filter2s := [Some "g"; Some "r"; Some "r"; Some "i"; Some "z"; Some "y"; Some "y"];
  b_pair_time := Float 33;
  b_camera_rot_limits := [Float (-80); Float 80];
  b_n_obs_template := Int 3;
  b_season := Float 300;
  b_season_start_hour := Float (-4);
  b_season_end_hour := Float 2;
  b_shadow_minutes := Float 60;
  b_max_alt := Float 76;
  b_moon_distance := Float 30;
  b_ignore_obs := VList [VStr "DD"; VStr "twilight_neo"];
  b_m5_weight := Float 6;
  b_footprint_weight := Float 1.5;
  b_slewtime_weight := Float 3;
  b_stayfilter_weight := Float 3;
  b_template_weight := Float 12;
  b_u_template_weight := Float 24;
  b_footprints := VNone;
  b_u_nexp1 := true;
  b_scheduled_respect := Float 45;
  b_good_seeing := {[ "g" := Int 3; "r" := Int 3; "i" := Int 3 ]};
  b_good_seeing_weight := Float 3;
  b_mjd_start := Int 1;
  b_repeat_weight := Int (-20)
|}.

Definition template_weights (a : blobs_args) : gmap string num :=
  {[ "u" := b_u_template_weight a; "g" := b_template_weight a;
     "r" := b_template_weight a; "i" := b_template_weight a;
     "z" := b_template_weight a; "y" := b_template_weight a ]}.

(** The four detailers every blob survey starts with (the first statements
    of the loop body in [generate_blobs] and [generate_twi_blobs]). *)
Definition blob_detailer_list (camera_rot_limits : list num) : result (list detailers.obj) :=
  let detailer_list := [] in
  min_rot ← np_min camera_rot_limits;
  max_rot ← np_max camera_rot_limits;
  let detailer_list :=
    detailer_list ++ [detailers.new detailers.CameraRotDetailer
                        [("min_rot", VNum min_rot); ("max_rot", VNum max_rot)]] in
  let detailer_list :=
    detailer_list ++ [detailers.new detailers.Rottep2RotspDesiredDetailer []] in
  let detailer_list :=
    detailer_list ++ [detailers.new detailers.CloseAltDetailer []] in
  let detailer_list :=
    detailer_list ++ [detailers.new detailers.FlushForSchedDetailer []] in
  OK detailer_list.

(** [[fn for fn in [filtername, filtername2] if fn is not None]] *)
Definition filternames_of (filtername : string) (filtername2 : option string) : pyval :=
  VList (VStr filtername :: match filtername2 with
                            | Some f2 => [VStr f2]
                            | None => []
                            end).

Definition opt_str (o : option string) : pyval :=
  match o with
  | Some s => VStr s
  | None => VNone
  end.

(** The [bfs] list of one iteration of [generate_blobs]. *)
Definition blob_bfs (a : blobs_args) (filtername : string) (filtername2 : option string)
  : result (list (bf.obj * num)) :=
  let nside := b_nside a in
  let footprints := b_footprints a in
  let times_needed := (b_pair_time a, num_mul (b_pair_time a) (Int 2)) in
  let m5 fn := bf.new bf.M5DiffBasisFunction
                 [("filtername", VStr fn); ("nside", VNum nside)] in
  let fp fn := bf.new bf.FootprintBasisFunction
                 [("filtername", VStr fn); ("footprint", footprints);
                  ("out_of_bounds_val", VNaN); ("nside", VNum nside)] in
  let n_obs_per_year fn footprint :=
    bf.new bf.NObsPerYearBasisFunction
      [("filtername", VStr fn); ("nside", VNum nside); ("footprint", footprint);
       ("n_obs", VNum (b_n_obs_template a)); ("season", VNum (b_season a));
       ("season_start_hour", VNum (b_season_start_hour a));
       ("season_end_hour", VNum (b_season_end_hour a))] in
  let n_good_seeing fn footprint n :=
    bf.new bf.NGoodSeeingBasisFunction
      [("filtername", VStr fn); ("nside", VNum nside);
       ("mjd_start", VNum (b_mjd_start a)); ("footprint", footprint);
       ("n_obs_desired", VNum n)] in
  let good_seeing_for bfs fn : result (list (bf.obj * num)) :=
    match b_good_seeing a !! fn with
    | Some n =>
        footprint ← get_footprint footprints fn;
        OK (bfs ++ [(n_good_seeing fn footprint n, b_good_seeing_weight a)])
    | None => OK bfs
    end in
  let bfs := [] in
  let bfs :=
    match filtername2 with
    | Some filtername2 =>
        let bfs := bfs ++ [(m5 filtername, truediv (b_m5_weight a) (Float 2))] in
        bfs ++ [(m5 filtername2, truediv (b_m5_weight a) (Float 2))]
    | None => bfs ++ [(m5 filtername, b_m5_weight a)]
    end in
  let bfs :=
    match filtername2 with
    | Some filtername2 =>
        let bfs := bfs ++ [(fp filtername, truediv (b_footprint_weight a) (Float 2))] in
        bfs ++ [(fp filtername2, truediv (b_footprint_weight a) (Float 2))]
    | None => bfs ++ [(fp filtername, b_footprint_weight a)]
    end in
  let bfs := bfs ++ [(bf.new bf.SlewtimeBasisFunction
                        [("filtername", VStr filtername); ("nside", VNum nside)],
                      b_slewtime_weight a)] in
  let bfs := bfs ++ [(bf.new bf.StrictFilterBasisFunction
                        [("filtername", VStr filtername)],
                      b_stayfilter_weight a)] in
  let bfs := bfs ++ [(bf.new bf.VisitRepeatBasisFunction
                        [("gap_min", VNum (Int 0));
                         ("gap_max", VNum (num_mul (Int 3) (Float 60)));
                         ("filtername", VNone);
                         ("nside", VNum nside); ("npairs", VNum (Int 20))],
                      b_repeat_weight a)] in
  bfs ←
    match filtername2 with
    | Some filtername2 =>
        footprint ← get_footprint footprints filtername;
        w ← getitem (template_weights a) filtername;
        let bfs := bfs ++ [(n_obs_per_year filtername footprint, truediv w (Float 2))] in
        footprint2 ← get_footprint footprints filtername2;
        w2 ← getitem (template_weights a) filtername2;
        OK (bfs ++ [(n_obs_per_year filtername2 footprint2, truediv w2 (Float 2))])
    | None =>
        footprint ← get_footprint footprints filtername;
        OK (bfs ++ [(n_obs_per_year filtername footprint, b_template_weight a)])
    end;
  (* Insert things for getting good seeing templates *)
  bfs ←
    match filtername2 with
    | Some filtername2 =>
        bfs ← good_seeing_for bfs filtername;
        good_seeing_for bfs filtername2
    | None => good_seeing_for bfs filtername
    end;
  (* Make sure we respect scheduled observations *)
  let bfs := bfs ++ [(bf.new bf.TimeToScheduledBasisFunction
                        [("time_needed", VNum (b_scheduled_respect a))],
                      Int 0)] in
  (* Masks, give these 0 weight *)
  let bfs := bfs ++ [(bf.new bf.ZenithShadowMaskBasisFunction
                        [("nside", VNum nside);
                         ("shadow_minutes", VNum (b_shadow_minutes a));
                         ("max_alt", VNum (b_max_alt a));
                         ("penalty", VNaN); ("site", VStr "LSST")],
                      Float 0)] in
  let bfs := bfs ++ [(bf.new bf.MoonAvoidanceBasisFunction
                        [("nside", VNum nside);
                         ("moon_distance", VNum (b_moon_distance a))],
                      Float 0)] in
  let filternames := filternames_of filtername filtername2 in
  let bfs := bfs ++ [(bf.new bf.FilterLoadedBasisFunction
                        [("filternames", filternames)],
                      Int 0)] in
  let time_needed :=
    match filtername2 with
    | None => times_needed.1
    | Some _ => times_needed.2
    end in
  let bfs := bfs ++ [(bf.new bf.TimeToTwilightBasisFunction
                        [("time_needed", VNum time_needed)],
                      Float 0)] in
  let bfs := bfs ++ [(bf.new bf.NotTwilightBasisFunction [], Float 0)] in
  let bfs := bfs ++ [(bf.new bf.PlanetMaskBasisFunction [("nside", VNum nside)],
                      Float 0)] in
  OK bfs.

(** The detailers appended after the basis functions are unpacked. *)
Definition blob_detailer_tail (a : blobs_args) (filtername2 : option string)
    (detailer_list : list detailers.obj) : list detailers.obj :=
  let detailer_list :=
    match filtername2 with
    | Some filtername2 =>
        detailer_list ++ [detailers.new detailers.TakeAsPairsDetailer
                            [("filtername", VStr filtername2)]]
    | None => detailer_list
    end in
  if b_u_nexp1 a
  then detailer_list ++ [detailers.new detailers.FilterNexp
                           [("filtername", VStr "u"); ("nexp", VNum (Int 1))]]
  else detailer_list.

Definition BlobSurvey_params (nside : num) : kwargs :=
  [("slew_approx", VNum (Float 7.5)); ("filter_change_approx", VNum (Float 140));
   ("read_approx", VNum (Float 2)); ("min_pair_time", VNum (Float 15));
   ("search_radius", VNum (Float 30)); ("alt_max", VNum (Float 85));
   ("az_range", VNum (Float 90)); ("flush_time", VNum (Float 30));
   ("smoothing_kernel", VNone); ("nside", VNum nside); ("seed", VNum (Int 42));
   ("dither", VBool true); ("twilight_scale", VBool false)].

(** [str(x)] of a filter name that may be [None], as the f-string and [%s]
    print it. *)
Definition str_of (o : option string) : string :=
  match o with
  | Some s => s
  | None => "None"
  end.

(** ** generate_twi_blobs *)

Record twi_args := {
  t_nside : num;
  t_nexp : num;
  t_exptime : num;
  t_filter1s : list string;
  t_filter2s : list (option string);
  t_pair_time : num;
  t_camera_rot_limits : list num;
  t_n_obs_template : num;
  t_season : num;
  t_season_start_hour : num;
  t_season_end_hour : num;
  t_shadow_minutes : num;
  t_max_alt : num;
  t_moon_distance : num;
  t_ignore_obs : pyval;
  t_m5_weight : num;
  t_footprint_weight : num;
  t_slewtime_weight : num;
  t_stayfilter_weight : num;
  t_template_weight : num;
  t_footprints : pyval;
  t_repeat_night_weight : option num;
  t_wfd_footprint : pyval;
  t_scheduled_respect : num;
  t_repeat_weight : num;
  t_night_pattern : pyval
}.

Definition twi_defaults (nside : num) : twi_args := {|
  t_nside := nside;
  t_nexp := Int 2;
  t_exptime := Float 30;
  t_filter1s := ["r"; "i"; "z"; "y"];
  t_filter2s := [Some "i"; Some "z"; Some "y"; Some "y"];
  t_pair_time := Float 15;
  t_camera_rot_limits := [Float (-80); Float 80];
  t_n_obs_template := Int 3;
  t_season := Float 300;
  t_season_start_hour := Float (-4);
  t_season_end_hour := Float 2;
  t_shadow_minutes := Float 60;
  t_max_alt := Float 76;
  t_moon_distance := Float 30;
  t_ignore_obs := VList [VStr "DD"; VStr "twilight_neo"];
  t_m5_weight := Float 6;
  t_footprint_weight := Float 1.5;
  t_slewtime_weight := Float 3;
  t_stayfilter_weight := Float 3;
  t_template_weight := Float 12;
  t_footprints := VNone;
  t_repeat_night_weight := None;
  t_wfd_footprint := VNone;
  t_scheduled_respect := Float 15;
  t_repeat_weight := Float (-1);
  t_night_pattern := VNone
|}.

(** The [bfs] list of one iteration of [generate_twi_blobs]. *)
Definition twi_blob_bfs (a : twi_args) (filtername : string) (filtername2 : option string)
  : result (list (bf.obj * num)) :=
  let nside := t_nside a in
  let footprints := t_footprints a in
  let times_needed := (t_pair_time a, num_mul (t_pair_time a) (Int 2)) in
  let m5 fn := bf.new bf.M5DiffBasisFunction
                 [("filtername", VStr fn); ("nside", VNum nside)] in
  let fp fn := bf.new bf.FootprintBasisFunction
                 [("filtername", VStr fn); ("footprint", footprints);
                  ("out_of_bounds_val", VNaN); ("nside", VNum nside)] in
  let n_obs_per_year fn footprint :=
    bf.new bf.NObsPerYearBasisFunction
      [("filtername", VStr fn); ("nside", VNum nside); ("footprint", footprint);
       ("n_obs", VNum (t_n_obs_template a)); ("season", VNum (t_season a));
       ("season_start_hour", VNum (t_season_start_hour a));
       ("season_end_hour", VNum (t_season_end_hour a))] in
  let bfs := [] in
  let bfs :=
    match filtername2 with
    | Some filtername2 =>
        let bfs := bfs ++ [(m5 filtername, truediv (t_m5_weight a) (Float 2))] in
        bfs ++ [(m5 filtername2, truediv (t_m5_weight a) (Float 2))]
    | None => bfs ++ [(m5 filtername, t_m5_weight a)]
    end in
  let bfs :=
    match filtername2 with
    | Some filtername2 =>
        let bfs := bfs ++ [(fp filtername, truediv (t_footprint_weight a) (Float 2))] in
        bfs ++ [(fp filtername2, truediv (t_footprint_weight a) (Float 2))]
    | None => bfs ++ [(fp filtername, t_footprint_weight a)]
    end in
  let bfs := bfs ++ [(bf.new bf.SlewtimeBasisFunction
                        [("filtername", VStr filtername); ("nside", VNum nside)],
                      t_slewtime_weight a)] in
  let bfs := bfs ++ [(bf.new bf.StrictFilterBasisFunction
                        [("filtername", VStr filtername)],
                      t_stayfilter_weight a)] in
  let bfs := bfs ++ [(bf.new bf.VisitRepeatBasisFunction
                        [("gap_min", VNum (Int 0));
                         ("gap_max", VNum (num_mul (Int 2) (Float 60)));
                         ("filtername", VNone);
                         ("nside", VNum nside); ("npairs", VNum (Int 20))],
                      t_repeat_weight a)] in
  bfs ←
    match filtername2 with
    | Some filtername2 =>
        footprint ← get_footprint footprints filtername;
        let bfs := bfs ++ [(n_obs_per_year filtername footprint,
                            truediv (t_template_weight a) (Float 2))] in
        footprint2 ← get_footprint footprints filtername2;
        OK (bfs ++ [(n_obs_per_year filtername2 footprint2,
                     truediv (t_template_weight a) (Float 2))])
    | None =>
        footprint ← get_footprint footprints filtername;
        OK (bfs ++ [(n_obs_per_year filtername footprint, t_template_weight a)])
    end;
  let bfs :=
    match t_repeat_night_weight a with
    | Some repeat_night_weight =>
        bfs ++ [(bf.new bf.AvoidLongGapsBasisFunction
                   [("nside", VNum nside); ("filtername", VNone);
                    ("min_gap", VNum (Float 0));
                    ("max_gap", VNum (truediv (Float 10) (Float 24)));
                    ("ha_limit", VNum (Float 3.5));
                    ("footprint", t_wfd_footprint a)],
                 repeat_night_weight)]
    | None => bfs
    end in
  (* Make sure we respect scheduled observations *)
  let bfs := bfs ++ [(bf.new bf.TimeToScheduledBasisFunction
                        [("time_needed", VNum (t_scheduled_respect a))],
                      Int 0)] in
  (* Masks, give these 0 weight *)
  let bfs := bfs ++ [(bf.new bf.ZenithShadowMaskBasisFunction
                        [("nside", VNum nside);
                         ("shadow_minutes", VNum (t_shadow_minutes a));
                         ("max_alt", VNum (t_max_alt a));
                         ("penalty", VNaN); ("site", VStr "LSST")],
                      Float 0)] in
  let bfs := bfs ++ [(bf.new bf.MoonAvoidanceBasisFunction
                        [("nside", VNum nside);
                         ("moon_distance", VNum (t_moon_distance a))],
                      Float 0)] in
  let filternames := filternames_of filtername filtername2 in
  let bfs := bfs ++ [(bf.new bf.FilterLoadedBasisFunction
                        [("filternames", filternames)],
                      Int 0)] in
  let time_needed :=
    match filtername2 with
    | None => times_needed.1
    | Some _ => times_needed.2
    end in
  let bfs := bfs ++ [(bf.new bf.TimeToTwilightBasisFunction
                        [("time_needed", VNum time_needed);
                         ("alt_limit", VNum (Int 12))],
                      Float 0)] in
  let bfs := bfs ++ [(bf.new bf.PlanetMaskBasisFunction [("nside", VNum nside)],
                      Float 0)] in
  (* Let's turn off twilight blobs on nights where we are doing NEO hunts *)
  let bfs := bfs ++ [(bf.new bf.NightModuloBasisFunction
                        [("pattern", t_night_pattern a)],
                      Int 0)] in
  OK bfs.

Definition twi_detailer_tail (filtername2 : option string)
    (detailer_list : list detailers.obj) : list detailers.obj :=
  match filtername2 with
  | Some filtername2 =>
      detailer_list ++ [detailers.new detailers.TakeAsPairsDetailer
                          [("filtername", VStr filtername2)]]
  | None => detailer_list
  end.

Definition twi_BlobSurvey_params (nside : num) : kwargs :=
  [("slew_approx", VNum (Float 7.5)); ("filter_change_approx", VNum (Float 140));
   ("read_approx", VNum (Float 2)); ("min_pair_time", VNum (Float 10));
   ("search_radius", VNum (Float 30)); ("alt_max", VNum (Float 85));
   ("az_range", VNum (Float 90)); ("flush_time", VNum (Float 30));
   ("smoothing_kernel", VNone); ("nside", VNum nside); ("seed", VNum (Int 42));
   ("dither", VBool true); ("twilight_scale", VBool false);
   ("in_twilight", VBool true)].

(** ** ecliptic_target, generate_twilight_neo *)

(** The target map around the ecliptic.  Its pixels come from the sky
    geometry of the library; the map is kept as the call that makes it. *)
Definition ecliptic_target (nside dist_to_eclip dec_max : num) (mask : pyval) : pyval :=
  VEclipticTarget nside dist_to_eclip dec_max mask.

Record neo_args := {
  n_nside : num;
  n_night_pattern : pyval;
  n_nexp : num;
  n_exptime : num;
  n_ideal_pair_time : num;
  n_max_airmass : num;
  n_camera_rot_limits : list num;
  n_time_needed : num;
  n_footprint_mask : pyval;
  n_footprint_weight : num;
  n_slewtime_weight : num;
  n_stayfilter_weight : num;
  n_area_required : pyval;
  n_filters : string;
  n_n_repeat : num;
  n_sun_alt_limit : num
}.

Definition neo_defaults (nside : num) : neo_args := {|
  n_nside := nside;
  n_night_pattern := VNone;
  n_nexp := Int 1;
  n_exptime := Int 15;
  n_ideal_pair_time := Float 5;
  n_max_airmass := Float 2;
  n_camera_rot_limits := [Float (-80); Float 80];
  n_time_needed := Int 10;
  n_footprint_mask := VNone;
  n_footprint_weight := Float 0.1;
  n_slewtime_weight := Float 3;
  n_stayfilter_weight := Float 3;
  n_area_required := VNone;
  n_filters := "riz";
  n_n_repeat := Int 3;
  n_sun_alt_limit := Float (-14.8)
|}.

(** Iterating a [str] yields its characters as one-character strings. *)
Definition chars (s : string) : list string :=
  map (λ c, String c EmptyString) (list_ascii_of_string s).

(** [constant_fp.set_footprint(filtername, footprint)] *)
Definition set_footprint (constant_fp : pyval) (filtername : string) (footprint : pyval)
  : pyval :=
  match constant_fp with
  | VConstantFootprint entries => VConstantFootprint (entries ++ [(filtername, footprint)])
  | other => other
  end.

(** The footprint object set up before the survey loop. *)
Definition neo_constant_fp (a : neo_args) : pyval :=
  let footprint := ecliptic_target (n_nside a) (Float 40) (Float 30) (n_footprint_mask a) in
  let constant_fp := VConstantFootprint [] in
  fold_left (λ constant_fp filtername, set_footprint constant_fp filtername footprint)
            (chars (n_filters a)) constant_fp.

Definition neo_detailer_list (a : neo_args) : result (list detailers.obj) :=
  let slew_estimate := Float 4.5 in
  let detailer_list := [] in
  min_rot ← np_min (n_camera_rot_limits a);
  max_rot ← np_max (n_camera_rot_limits a);
  let detailer_list :=
    detailer_list ++ [detailers.new detailers.CameraRotDetailer
                        [("min_rot", VNum min_rot); ("max_rot", VNum max_rot)]] in
  let detailer_list :=
    detailer_list ++ [detailers.new detailers.CloseAltDetailer []] in
  let detailer_list :=
    detailer_list ++ [detailers.new detailers.TwilightTripleDetailer
                        [("slew_estimate", VNum slew_estimate);
                         ("n_repeat", VNum (n_n_repeat a))]] in
  OK detailer_list.

(** The [bfs] list of one iteration of [generate_twilight_neo]. *)
Definition neo_bfs (a : neo_args) (constant_fp : pyval) (filtername : string)
  : list (bf.obj * num) :=
  let nside := n_nside a in
  let bfs := [] in
  let bfs := bfs ++ [(bf.new bf.FootprintBasisFunction
                        [("filtername", VStr filtername); ("footprint", constant_fp);
                         ("out_of_bounds_val", VNaN); ("nside", VNum nside)],
                      n_footprint_weight a)] in
  let bfs := bfs ++ [(bf.new bf.SlewtimeBasisFunction
                        [("filtername", VStr filtername); ("nside", VNum nside)],
                      n_slewtime_weight a)] in
  let bfs := bfs ++ [(bf.new bf.StrictFilterBasisFunction
                        [("filtername", VStr filtername)],
                      n_stayfilter_weight a)] in
  let bfs := bfs ++ [(bf.new bf.NearSunTwilightBasisFunction
                        [("nside", VNum nside); ("max_airmass", VNum (n_max_airmass a))],
                      Int 0)] in
  let bfs := bfs ++ [(bf.new bf.ZenithShadowMaskBasisFunction
                        [("nside", VNum nside); ("shadow_minutes", VNum (Float 60));
                         ("max_alt", VNum (Float 76))],
                      Int 0)] in
  let bfs := bfs ++ [(bf.new bf.MoonAvoidanceBasisFunction
                        [("nside", VNum nside); ("moon_distance", VNum (Float 30))],
                      Int 0)] in
  let bfs := bfs ++ [(bf.new bf.FilterLoadedBasisFunction
                        [("filternames", VStr filtername)],
                      Int 0)] in
  let bfs := bfs ++ [(bf.new bf.PlanetMaskBasisFunction [("nside", VNum nside)],
                      Int 0)] in
  let bfs := bfs ++ [(bf.new bf.SolarElongationMaskBasisFunction
                        [("min_elong", VNum (Float 0)); ("max_elong", VNum (Float 60));
                         ("nside", VNum nside)],
                      Int 0)] in
  let bfs := bfs ++ [(bf.new bf.NightModuloBasisFunction
                        [("pattern", n_night_pattern a)],
                      Int 0)] in
  (* Do not attempt unless the sun is getting high *)
  let bfs := bfs ++ [(bf.new bf.SunAltHighLimitBasisFunction
                        [("alt_limit", VNum (n_sun_alt_limit a))],
                      Int 0)] in
  bfs.

(** ** Strings and paths *)

Fixpoint ends_with_sep (s : string) : bool :=
  match s with
  | EmptyString => false
  | String c EmptyString => Ascii.eqb c "/"%char
  | String _ s' => ends_with_sep s'
  end.

(** [os.path.join] (POSIX): an absolute component restarts the path. *)
Definition path_join2 (path b : string) : string :=
  if String.prefix "/" b then b
  else if bool_decide (path = "") || ends_with_sep path then path +:+ b
  else path +:+ "/" +:+ b.

Definition os_path_join (a : string) (p : list string) : string :=
  fold_left path_join2 p a.

(** [os.path.basename]: what follows the last separator. *)
Fixpoint basename_from (acc s : string) : string :=
  match s with
  | EmptyString => acc
  | String c s' =>
      if Ascii.eqb c "/"%char then basename_from "" s'
      else basename_from (acc +:+ String c EmptyString) s'
  end.
Definition os_path_basename (p : string) : string := basename_from "" p.

(** [s.replace(old, '')] for a non-empty [old]: every occurrence, left to
    right, without overlap. *)
Fixpoint remove_from (skip : nat) (old s : string) : string :=
  match s with
  | EmptyString => EmptyString
  | String c s' =>
      match skip with
      | S k => remove_from k old s'
      | O =>
          if String.prefix old s then remove_from (String.length old - 1) old s'
          else String c (remove_from 0 old s')
      end
  end.
Definition str_remove (old s : string) : string := remove_from 0 old s.

(** [np.round]: to the nearest integer, ties to the even one. *)
Definition np_round (q : Q) : Z :=
  let fl := Qfloor q in
  let r := (q - inject_Z fl)%Q in
  match (r ?= 1 # 2)%Q with
  | Lt => fl
  | Gt => (fl + 1)%Z
  | Eq => if Z.even fl then fl else (fl + 1)%Z
  end.

(** ['%i' % z] *)
Definition fmt_i (z : Z) : string := NilZero.string_of_int (Z.to_int z).

(** ** Arrays *)

(** [np.where(mask)[0]]: the indices where the mask holds, ascending. *)
Definition np_where (mask : list bool) : list nat :=
  (filter (λ p, p.2 = true) (imap (λ k b, (k, b)) mask)).*1.

(** [arr[idx]] with an index array. *)
Definition take_rows {A} (arr : list A) (idx : list nat) : result (list A) :=
  mapM (λ k, match arr !! k with
             | Some x => OK x
             | None => Raise IndexError
             end) idx.

(** [arr[idx] = v] with an index array. *)
Fixpoint set_rows {A} (arr : list A) (idx : list nat) (v : A) : result (list A) :=
  match idx with
  | [] => OK arr
  | k :: idx' =>
      if decide (k < length arr)%nat then set_rows (<[k := v]> arr) idx' v
      else Raise IndexError
  end.

(** A comparison of two arrays, element by element; the shapes must agree. *)
Definition elementwise {A B C} (op : A → B → C) (x : list A) (y : list B)
  : result (list C) :=
  if decide (length x = length y) then OK (zip_with op x y) else Raise ValueError.

(** ** ddf_surveys *)

(** A row of the scheduled-observation array: its [note] column and the
    other columns. *)
Record obs_row := { note : string; columns : pyval }.

Record ScriptedSurvey := {
  sc_basis_functions : list bf.obj;
  sc_detailers : option (list detailers.obj);
  sc_script : list obs_row
}.

Definition is_euclid_note (r : obs_row) : bool :=
  bool_decide (note r = "DD:EDFS_b") || bool_decide (note r = "DD:EDFS_a").

Definition not_euclid_note (r : obs_row) : bool :=
  bool_decide (note r ≠ "DD:EDFS_b") && bool_decide (note r ≠ "DD:EDFS_a").

Definition euclid_obs (obs_array : list obs_row) : list nat :=
  np_where (map is_euclid_note obs_array).

Definition all_other (obs_array : list obs_row) : list nat :=
  np_where (map not_euclid_note obs_array).

(** [ddf_surveys], given what [generate_ddf_scheduled_obs] returned (that
    function lives in [make_ddf_survey], next to the scripts). *)
Definition ddf_surveys (generate_ddf_scheduled_obs : result (list obs_row))
    (detailers euclid_detailers : option (list detailers.obj))
  : result (list ScriptedSurvey) :=
  obs_array ← generate_ddf_scheduled_obs;
  let euclid_obs := euclid_obs obs_array in
  let all_other := all_other obs_array in
  script1 ← take_rows obs_array all_other;
  let survey1 := {| sc_basis_functions := []; sc_detailers := detailers;
                    sc_script := script1 |} in
  script2 ← take_rows obs_array euclid_obs;
  let survey2 := {| sc_basis_functions := []; sc_detailers := euclid_detailers;
                    sc_script := script2 |} in
  OK [survey1; survey2].

(** ** EuclidOverlapFootprint (euclid_smudge.py) *)

(** The two arrays a sky-area generator fills in: a label per HEALpix and a
    structured array with one float column per filter. *)
Record sky_maps := {
  pix_labels : list string;
  healmaps : gmap string (list Q)
}.

(** Labels are stored in a [U20] array: longer strings are cut. *)
Definition U20 (s : string) : string := String.substring 0 20 s.

(** [self.healmaps[filtername][indx] = v]; a name that is no column of the
    array raises. *)
Definition set_column (hm : gmap string (list Q)) (filtername : string)
    (indx : list nat) (v : Q) : result (gmap string (list Q)) :=
  match hm !! filtername with
  | Some col =>
      col' ← set_rows col indx v;
      OK (<[filtername := col']> hm)
  | None => Raise ValueError
  end.

(** [add_euclid_overlap], given [in_poly], the list the comprehension over
    [polygon.contains] produced.  The selection is the expression
    [np.array(in_poly) == True & (self.pix_labels == "")], in which [&] binds
    tighter than [==]. *)
Definition euclid_selection (in_poly : list bool) (pix_labels : list string)
  : result (list bool) :=
  let unlabeled := map (λ l, bool_decide (l = "")) pix_labels in
  let rhs := map (λ b, true && b) unlabeled in
  elementwise (λ p b, bool_decide (p = b)) in_poly rhs.

Definition add_euclid_overlap (in_poly : list bool) (filter_ratios : list (string * Q))
    (label : string) (self : sky_maps) : result sky_maps :=
  sel ← euclid_selection in_poly (pix_labels self);
  let indx := np_where sel in
  labels ← set_rows (pix_labels self) indx (U20 label);
  hm ← foldl (λ acc '(filtername, ratio),
                hm ← acc; set_column hm filtername indx ratio)
             (OK (healmaps self)) filter_ratios;
  OK {| pix_labels := labels; healmaps := hm |}.

Definition euclid_ratios : list (string * Q) :=
  [("u", 0.32); ("g", 0.4); ("r", 1.0); ("i", 1.0); ("z", 0.9); ("y", 0.9)]%Q.

(** ** The environment of a run

    What the script gets from outside: the command line, the two
    subprocesses, and the calls into the scheduling library that do real
    work.  Each call has one outcome in a given run: the value it returns,
    or the exception it raises. *)

Module args.
Record t := {
  verbose : bool;
  survey_length : num;
  outDir : string;
  maxDither : num;
  moon_illum_limit : num;
  nexp : num;
  rolling_nslice : num;
  rolling_strength : num;
  dbroot : option string;
  gsw : num;
  ddf_season_frac : num;
  agg_level : string;
  nights_off : Z;
  nights_delayed : num;
  neo_night_pattern : Z;
  neo_filters : string;
  neo_repeat : num
}.
End args.

Record conditions := { mjd_start : num; sun_ra_start : num }.

Record world := {
  sys_argv : list string;
  parse_args : result args.t;
  check_output : list string → result string;      (* subprocess.check_output *)
  realpath_file : string;                          (* os.path.realpath(__file__) *)
  rubin_sim_path : list string;                    (* rubin_sim.__path__ *)
  sky_generator : result unit;                     (* the sky-area generator's constructor *)
  library_return_maps : result sky_maps;           (* SkyAreaGeneratorGalplane.return_maps *)
  npix : nat;                                      (* hp.nside2npix(self.nside) *)
  add_magellanic_clouds : result (sky_maps → sky_maps);
  add_lowdust_wfd : result (sky_maps → sky_maps);
  add_virgo_cluster : result (sky_maps → sky_maps);
  add_bulgy : result (sky_maps → sky_maps);
  add_nes : result (sky_maps → sky_maps);
  add_dusty_plane : result (sky_maps → sky_maps);
  euclid_in_poly : result (list bool);             (* contour file, polygon, contains *)
  add_scp : result (sky_maps → sky_maps);
  ModelObservatory : result unit;
  return_conditions : result conditions;
  make_rolling_footprints : result pyval;
  gen_long_gaps_survey : result pyval;
  generate_ddf_scheduled_obs : result (list obs_row);
  CoreScheduler : result unit;
  FilterSchedUzy : result unit;
  ModelObservatory_run : result unit;              (* the one inside run_sched *)
  sim_runner : result pyval
}.

(** The survey tiers handed to the scheduler. *)
Inductive tier :=
| Scripted (l : list ScriptedSurvey)
| Library (v : pyval)
| Generated (l : list surveys.obj).

(** The call [sim_runner(observatory, scheduler, ...)]. *)
Record sim_call := {
  call_surveys : list tier;
  call_nside : num;
  call_illum_limit : num;
  call_survey_length : num;
  call_filename : string;
  call_delete_past : bool;
  call_n_visit_limit : pyval;
  call_verbose : bool;
  call_extra_info : option (gmap string pyval)
}.

(** A finished run: the call made to the driver and what it returned. *)
Record run := { call : sim_call; returned : pyval }.

(** ** run_sched *)
Definition run_sched (w : world) (surveys : list tier) (survey_length nside : num)
    (fileroot : string) (verbose : bool) (extra_info : option (gmap string pyval))
    (illum_limit : num) : result run :=
  let years := np_round (numQ (truediv survey_length (Float 365.25))) in
  scheduler ← CoreScheduler w;
  let n_visit_limit := VNone in
  fs ← FilterSchedUzy w;
  observatory ← ModelObservatory_run w;
  let c := {| call_surveys := surveys; call_nside := nside;
              call_illum_limit := illum_limit;
              call_survey_length := survey_length;
              call_filename := fileroot +:+ (fmt_i years +:+ "yrs.db");
              call_delete_past := true; call_n_visit_limit := n_visit_limit;
              call_verbose := verbose; call_extra_info := extra_info |} in
  out ← sim_runner w;
  OK {| call := c; returned := out |}.

(** ** The body of the script, from the parsed arguments on *)

Definition pattern_dict : gmap Z (list bool) :=
  {[ 1%Z := [true]; 2%Z := [true; false]; 3%Z := [true; false; false];
     4%Z := [true; false; false; false];
     5%Z := [true; true; true; true; false; false; false; false];
     6%Z := [true; true; true; false; false; false; false];
     7%Z := [true; true; false; false; false; false] ]}.

Definition getitemZ {V} (d : gmap Z V) (k : Z) : result V :=
  match d !! k with
  | Some v => OK v
  | None => Raise KeyError
  end.

(** [l[0]] *)
Definition first {A} (l : list A) : result A :=
  match l with
  | x :: _ => OK x
  | [] => Raise IndexError
  end.

(** [arr['r']] on the structured array of footprints. *)
Definition field (arr : gmap string (list Q)) (name : string) : result (list Q) :=
  match arr !! name with
  | Some col => OK col
  | None => Raise ValueError
  end.

Definition git_command : list string := ["git"; "rev-parse"; "HEAD"].

(** [try: extra_info['git hash'] = check_output(['git', 'rev-parse', 'HEAD'])]
    [except CalledProcessError: extra_info['git hash'] = 'Not in git repo'] *)
Definition git_hash (w : world) (extra_info : gmap string pyval)
  : result (gmap string pyval) :=
  try_except
    (out ← check_output w git_command;
     OK (<["git hash" := VBytes out]> extra_info))
    CalledProcessError
    (OK (<["git hash" := VStr "Not in git repo"]> extra_info)).

Definition hash_file (rs_path : string) : string :=
  os_path_join rs_path ["../"; ".git/refs/heads/main"].

(** [try: ... extra_info['rubin_sim git hash'] = check_output(['cat', hash_file])]
    [except CalledProcessError: pass] *)
Definition rubin_sim_git_hash (w : world) (extra_info : gmap string pyval)
  : result (gmap string pyval) :=
  try_except
    (rs_path ← first (rubin_sim_path w);
     let hash_file := hash_file rs_path in
     out ← check_output w ["cat"; hash_file];
     OK (<["rubin_sim git hash" := VBytes out]> extra_info))
    CalledProcessError
    (OK extra_info).

(** [for arg in sys.argv: exec_command += ' ' + arg] *)
Definition exec_command_of (argv : list string) : string :=
  fold_left (λ exec_command arg, exec_command +:+ (" " +:+ arg)) argv "".

(** The provenance dictionary [extra_info]. *)
Definition provenance (w : world) : result (gmap string pyval) :=
  let extra_info : gmap string pyval := ∅ in
  let exec_command := exec_command_of (sys_argv w) in
  let extra_info := <["exec command" := VStr exec_command]> extra_info in
  extra_info ← git_hash w extra_info;
  let extra_info := <["file executed" := VStr (realpath_file w)]> extra_info in
  rubin_sim_git_hash w extra_info.

(** The four generator functions of a script. *)
Record generators := {
  gen_GreedySurveys_of : greedy_args → result (list surveys.obj);
  generate_blobs_of : blobs_args → result (list surveys.obj);
  generate_twi_blobs_of : twi_args → result (list surveys.obj);
  generate_twilight_neo_of : neo_args → result (list surveys.obj)
}.

Definition bools (l : list bool) : pyval := VList (map VBool l).
Definition floats (l : list Q) : pyval := VList (map (λ q, VNum (Float q)) l).

Definition script_body (G : generators) (return_maps : world → result sky_maps)
    (a : args.t) (w : world) : result run :=
  let survey_length := args.survey_length a in
  let outDir := args.outDir a in
  let verbose := args.verbose a in
  let max_dither := args.maxDither a in
  let illum_limit := args.moon_illum_limit a in
  let nexp := args.nexp a in
  let dbroot := args.dbroot a in
  let gsw := args.gsw a in
  let nights_off := args.nights_off a in
  let neo_filters := args.neo_filters a in
  let neo_repeat := args.neo_repeat a in
  let ddf_season_frac := args.ddf_season_frac a in
  let nside := Int 32 in
  let per_night := true in
  let camera_ddf_rot_limit := Float 75 in
  extra_info ← provenance w;
  (* Use the filename of the script to name the output database *)
  fileroot ←
    match dbroot with
    | None =>
        argv0 ← first (sys_argv w);
        OK (str_remove ".py" (os_path_basename argv0) +:+ "_")
    | Some dbroot => OK (dbroot +:+ "_")
    end;
  let file_end := "v2.99_" in
  neo_night_pattern ← getitemZ pattern_dict (args.neo_night_pattern a);
  let reverse_neo_night_pattern := map negb neo_night_pattern in
  (* Modify the footprint *)
  sky ← sky_generator w;
  maps ← return_maps w;
  let footprints_hp_array := healmaps maps in
  let labels := pix_labels maps in
  let wfd_indx :=
    np_where (map (λ l, bool_decide (l = "lowdust") || bool_decide (l = "LMC_SMC")
                        || bool_decide (l = "virgo")) labels) in
  r ← field footprints_hp_array "r";
  let wfd_footprint := map (λ x, x * 0)%Q r in
  wfd_footprint ← set_rows wfd_footprint wfd_indx 1%Q;
  let footprints_hp := footprints_hp_array in
  r ← getitem footprints_hp "r";
  let footprint_mask := map (λ x, x * 0)%Q r in
  footprint_mask ←
    set_rows footprint_mask (np_where (map (λ x, negb (Qle_bool x 0)) r)) 1%Q;
  let repeat_night_weight : option num := None in
  observatory ← ModelObservatory w;
  conditions ← return_conditions w;
  footprints ← make_rolling_footprints w;
  let gaps_night_pattern := true :: replicate (Z.to_nat nights_off) false in
  long_gaps ← gen_long_gaps_survey w;
  (* Set up the DDF surveys to dither *)
  let u_detailer := detailers.new detailers.FilterNexp
                      [("filtername", VStr "u"); ("nexp", VNum (Int 1))] in
  let dither_detailer := detailers.new detailers.DitherDetailer
                           [("per_night", VBool per_night);
                            ("max_dither", VNum max_dither)] in
  let details :=
    [detailers.new detailers.CameraRotDetailer
       [("min_rot", VNum (num_neg camera_ddf_rot_limit));
        ("max_rot", VNum camera_ddf_rot_limit)];
     dither_detailer; u_detailer;
     detailers.new detailers.Rottep2RotspDesiredDetailer []] in
  let euclid_detailers :=
    [detailers.new detailers.CameraRotDetailer
       [("min_rot", VNum (num_neg camera_ddf_rot_limit));
        ("max_rot", VNum camera_ddf_rot_limit)];
     detailers.new detailers.EuclidDitherDetailer []; u_detailer;
     detailers.new detailers.Rottep2RotspDesiredDetailer []] in
  ddfs ← ddf_surveys (generate_ddf_scheduled_obs w) (Some details) (Some euclid_detailers);
  greedy ← gen_GreedySurveys_of G
    (let d := greedy_defaults in
     {| g_nside := nside; g_nexp := nexp; g_exptime := g_exptime d;
        g_filters := g_filters d; g_camera_rot_limits := g_camera_rot_limits d;
        g_shadow_minutes := g_shadow_minutes d; g_max_alt := g_max_alt d;
        g_moon_distance := g_moon_distance d; g_ignore_obs := g_ignore_obs d;
        g_m5_weight := g_m5_weight d; g_footprint_weight := g_footprint_weight d;
        g_slewtime_weight := g_slewtime_weight d;
        g_stayfilter_weight := g_stayfilter_weight d;
        g_repeat_weight := g_repeat_weight d; g_footprints := footprints |});
  neo ← generate_twilight_neo_of G
    (let d := neo_defaults nside in
     {| n_nside := nside; n_night_pattern := bools neo_night_pattern;
        n_nexp := n_nexp d; n_exptime := n_exptime d;
        n_ideal_pair_time := n_ideal_pair_time d; n_max_airmass := n_max_airmass d;
        n_camera_rot_limits := n_camera_rot_limits d;
        n_time_needed := n_time_needed d;
        n_footprint_mask := floats footprint_mask;
        n_footprint_weight := n_footprint_weight d;
        n_slewtime_weight := n_slewtime_weight d;
        n_stayfilter_weight := n_stayfilter_weight d;
        n_area_required := n_area_required d; n_filters := neo_filters;
        n_n_repeat := neo_repeat; n_sun_alt_limit := n_sun_alt_limit d |});
  blobs ← generate_blobs_of G
    (let d := blobs_defaults nside in
     {| b_nside := nside; b_nexp := nexp; b_exptime := b_exptime d;
        b_filter1s := b_filter1s d; b_filter2s := b_filter2s d;
        b_pair_time := b_pair_time d; b_camera_rot_limits := b_camera_rot_limits d;
        b_n_obs_template := b_n_obs_template d; b_season := b_season d;
        b_season_start_hour := b_season_start_hour d;
        b_season_end_hour := b_season_end_hour d;
        b_shadow_minutes := b_shadow_minutes d; b_max_alt := b_max_alt d;
        b_moon_distance := b_moon_distance d; b_ignore_obs := b_ignore_obs d;
        b_m5_weight := b_m5_weight d; b_footprint_weight := b_footprint_weight d;
        b_slewtime_weight := b_slewtime_weight d;
        b_stayfilter_weight := b_stayfilter_weight d;
        b_template_weight := b_template_weight d;
        b_u_template_weight := b_u_template_weight d;
        b_footprints := footprints; b_u_nexp1 := b_u_nexp1 d;
        b_scheduled_respect := b_scheduled_respect d;
        b_good_seeing := b_good_seeing d; b_good_seeing_weight := gsw;
        b_mjd_start := mjd_start conditions; b_repeat_weight := b_repeat_weight d |});
  twi_blobs ← generate_twi_blobs_of G
    (let d := twi_defaults nside in
     {| t_nside := nside; t_nexp := nexp; t_exptime := t_exptime d;
        t_filter1s := t_filter1s d; t_filter2s := t_filter2s d;
        t_pair_time := t_pair_time d; t_camera_rot_limits := t_camera_rot_limits d;
        t_n_obs_template := t_n_obs_template d; t_season := t_season d;
        t_season_start_hour := t_season_start_hour d;
        t_season_end_hour := t_season_end_hour d;
        t_shadow_minutes := t_shadow_minutes d; t_max_alt := t_max_alt d;
        t_moon_distance := t_moon_distance d; t_ignore_obs := t_ignore_obs d;
        t_m5_weight := t_m5_weight d; t_footprint_weight := t_footprint_weight d;
        t_slewtime_weight := t_slewtime_weight d;
        t_stayfilter_weight := t_stayfilter_weight d;
        t_template_weight := t_template_weight d; t_footprints := footprints;
        t_repeat_night_weight := repeat_night_weight;
        t_wfd_footprint := floats wfd_footprint;
        t_scheduled_respect := t_scheduled_respect d;
        t_repeat_weight := t_repeat_weight d;
        t_night_pattern := bools reverse_neo_night_pattern |});
  let surveys := [Scripted ddfs; Library long_gaps; Generated blobs;
                  Generated twi_blobs; Generated neo; Generated greedy] in
  run_sched w surveys survey_length nside
    (os_path_join outDir [fileroot +:+ file_end]) verbose (Some extra_info) illum_limit.

(** ** draft2_updated/draft2_uzy_named.py *)
Module draft2_uzy_named.

Definition gen_GreedySurveys (a : greedy_args) : result (list surveys.obj) :=
  detailer_list ← greedy_detailer_list a;
  for_each (λ filtername,
    let bfs := greedy_bfs a filtername in
    let weights := map snd bfs in
    let basis_functions := map fst bfs in
    let survey_name := "Twilight greedy survey " +:+ filtername in
    OK (surveys.new surveys.GreedySurvey basis_functions weights detailer_list
          ([("exptime", VNum (g_exptime a)); ("filtername", VStr filtername);
            ("nside", VNum (g_nside a)); ("ignore_obs", g_ignore_obs a);
            ("nexp", VNum (g_nexp a)); ("survey_name", VStr survey_name)]
           ++ greed_survey_params)))
    (g_filters a).

Definition generate_blobs (a : blobs_args) : result (list surveys.obj) :=
  for_each (λ '(filtername, filtername2),
    detailer_list ← blob_detailer_list (b_camera_rot_limits a);
    bfs ← blob_bfs a filtername filtername2;
    (* unpack the basis functions and weights *)
    let weights := map snd bfs in
    let basis_functions := map fst bfs in
    let survey_name :=
      "Standard pair blobs " +:+ (filtername +:+ ("_" +:+ str_of filtername2)) in
    let detailer_list := blob_detailer_tail a filtername2 detailer_list in
    OK (surveys.new surveys.BlobSurvey basis_functions weights detailer_list
          ([("filtername1", VStr filtername); ("filtername2", opt_str filtername2);
            ("exptime", VNum (b_exptime a));
            ("ideal_pair_time", VNum (b_pair_time a));
            ("survey_note", VStr survey_name); ("ignore_obs", b_ignore_obs a);
            ("nexp", VNum (b_nexp a)); ("survey_name", VStr survey_name)]
           ++ BlobSurvey_params (b_nside a))))
    (zip (b_filter1s a) (b_filter2s a)).

Definition generate_twi_blobs (a : twi_args) : result (list surveys.obj) :=
  for_each (λ '(filtername, filtername2),
    detailer_list ← blob_detailer_list (t_camera_rot_limits a);
    bfs ← twi_blob_bfs a filtername filtername2;
    (* unpack the basis functions and weights *)
    let weights := map snd bfs in
    let basis_functions := map fst bfs in
    let survey_note :=
      match filtername2 with
      | None => "blob_twi, " +:+ filtername
      | Some filtername2 => "blob_twi, " +:+ (filtername +:+ filtername2)
      end in
    let survey_name :=
      match filtername2 with
      | None => "Twilight pair blob " +:+ filtername
      | Some filtername2 =>
          "Twilight pair blob " +:+ (filtername +:+ ("_" +:+ filtername2))
      end in
    let detailer_list := twi_detailer_tail filtername2 detailer_list in
    OK (surveys.new surveys.BlobSurvey basis_functions weights detailer_list
          ([("filtername1", VStr filtername); ("filtername2", opt_str filtername2);
            ("exptime", VNum (t_exptime a));
            ("ideal_pair_time", VNum (t_pair_time a));
            ("survey_note", VStr survey_note); ("ignore_obs", t_ignore_obs a);
            ("nexp", VNum (t_nexp a)); ("survey_name", VStr survey_name)]
           ++ twi_BlobSurvey_params (t_nside a))))
    (zip (t_filter1s a) (t_filter2s a)).

Definition generate_twilight_neo (a : neo_args) : result (list surveys.obj) :=
  let survey_note := "twilight_neo" in
  let constant_fp := neo_constant_fp a in
  for_each (λ filtername,
    detailer_list ← neo_detailer_list a;
    let bfs := neo_bfs a constant_fp filtername in
    (* unpack the basis functions and weights *)
    let weights := map snd bfs in
    let basis_functions := map fst bfs in
    let survey_name := "Near Sun twilight survey " +:+ filtername in
    OK (surveys.new surveys.BlobSurvey basis_functions weights detailer_list
          [("filtername1", VStr filtername); ("filtername2", VNone);
           ("ideal_pair_time", VNum (n_ideal_pair_time a));
           ("nside", VNum (n_nside a)); ("exptime", VNum (n_exptime a));
           ("survey_note", VStr survey_note);
           ("ignore_obs", VList [VStr "DD"; VStr "greedy"; VStr "blob"]);
           ("dither", VBool true); ("nexp", VNum (n_nexp a));
           ("az_range", VNum (Float 180)); ("twilight_scale", VBool false);
           ("area_required", n_area_required a);
           ("survey_name", VStr survey_name)]))
    (chars (n_filters a)).

Definition generators : generators := {|
  gen_GreedySurveys_of := gen_GreedySurveys;
  generate_blobs_of := generate_blobs;
  generate_twi_blobs_of := generate_twi_blobs;
  generate_twilight_neo_of := generate_twilight_neo
|}.

(** [main(args)]: the sky maps come from the library's
    [SkyAreaGeneratorGalplane]. *)
Definition main (a : args.t) (w : world) : result run :=
  script_body generators library_return_maps a w.

(** The [__main__] block: parse the command line, then [main(args)]. *)
Definition script (w : world) : result run :=
  a ← parse_args w;
  main a w.

End draft2_uzy_named.

(** ** euclid_south/euclid_smudge.py *)
Module euclid_smudge.

Definition greed_survey_params : kwargs :=
  greed_survey_params ++ [("survey_name", VStr "greedy")].

Definition gen_GreedySurveys (a : greedy_args) : result (list surveys.obj) :=
  detailer_list ← greedy_detailer_list a;
  for_each (λ filtername,
    let bfs := greedy_bfs a filtername in
    let weights := map snd bfs in
    let basis_functions := map fst bfs in
    OK (surveys.new surveys.GreedySurvey basis_functions weights detailer_list
          ([("exptime", VNum (g_exptime a)); ("filtername", VStr filtername);
            ("nside", VNum (g_nside a)); ("ignore_obs", g_ignore_obs a);
            ("nexp", VNum (g_nexp a))]
           ++ greed_survey_params)))
    (g_filters a).

Definition generate_blobs (a : blobs_args) : result (list surveys.obj) :=
  for_each (λ '(filtername, filtername2),
    detailer_list ← blob_detailer_list (b_camera_rot_limits a);
    bfs ← blob_bfs a filtername filtername2;
    (* unpack the basis functions and weights *)
    let weights := map snd bfs in
    let basis_functions := map fst bfs in
    let survey_name :=
      match filtername2 with
      | None => "blob, " +:+ filtername
      | Some filtername2 => "blob, " +:+ (filtername +:+ filtername2)
      end in
    let detailer_list := blob_detailer_tail a filtername2 detailer_list in
    OK (surveys.new surveys.BlobSurvey basis_functions weights detailer_list
          ([("filtername1", VStr filtername); ("filtername2", opt_str filtername2);
            ("exptime", VNum (b_exptime a));
            ("ideal_pair_time", VNum (b_pair_time a));
            ("survey_note", VStr survey_name); ("ignore_obs", b_ignore_obs a);
            ("nexp", VNum (b_nexp a))]
           ++ BlobSurvey_params (b_nside a))))
    (zip (b_filter1s a) (b_filter2s a)).

Definition generate_twi_blobs (a : twi_args) : result (list surveys.obj) :=
  for_each (λ '(filtername, filtername2),
    detailer_list ← blob_detailer_list (t_camera_rot_limits a);
    bfs ← twi_blob_bfs a filtername filtername2;
    (* unpack the basis functions and weights *)
    let weights := map snd bfs in
    let basis_functions := map fst bfs in
    let survey_name :=
      match filtername2 with
      | None => "blob_twi, " +:+ filtername
      | Some filtername2 => "blob_twi, " +:+ (filtername +:+ filtername2)
      end in
    let detailer_list := twi_detailer_tail filtername2 detailer_list in
    OK (surveys.new surveys.BlobSurvey basis_functions weights detailer_list
          ([("filtername1", VStr filtername); ("filtername2", opt_str filtername2);
            ("exptime", VNum (t_exptime a));
            ("ideal_pair_time", VNum (t_pair_time a));
            ("survey_note", VStr survey_name); ("ignore_obs", t_ignore_obs a);
            ("nexp", VNum (t_nexp a))]
           ++ twi_BlobSurvey_params (t_nside a))))
    (zip (t_filter1s a) (t_filter2s a)).

Definition generate_twilight_neo (a : neo_args) : result (list surveys.obj) :=
  let survey_name := "twilight_neo" in
  let constant_fp := neo_constant_fp a in
  for_each (λ filtername,
    detailer_list ← neo_detailer_list a;
    let bfs := neo_bfs a constant_fp filtername in
    (* unpack the basis functions and weights *)
    let weights := map snd bfs in
    let basis_functions := map fst bfs in
    OK (surveys.new surveys.BlobSurvey basis_functions weights detailer_list
          [("filtername1", VStr filtername); ("filtername2", VNone);
           ("ideal_pair_time", VNum (n_ideal_pair_time a));
           ("nside", VNum (n_nside a)); ("exptime", VNum (n_exptime a));
           ("survey_note", VStr survey_name);
           ("ignore_obs", VList [VStr "DD"; VStr "greedy"; VStr "blob"]);
           ("dither", VBool true); ("nexp", VNum (n_nexp a));
           ("az_range", VNum (Float 180)); ("twilight_scale", VBool false);
           ("area_required", n_area_required a)]))
    (chars (n_filters a)).

Definition generators : generators := {|
  gen_GreedySurveys_of := gen_GreedySurveys;
  generate_blobs_of := generate_blobs;
  generate_twi_blobs_of := generate_twi_blobs;
  generate_twilight_neo_of := generate_twilight_neo
|}.

(** [EuclidOverlapFootprint.return_maps]: start from empty maps, run the
    inherited [add_] methods and [add_euclid_overlap] in the order of the
    source. *)
Definition return_maps (w : world) : result sky_maps :=
  let dtype := zip ["u"; "g"; "r"; "i"; "z"; "y"] (replicate 7 "float") in
  let self := {| pix_labels := replicate (npix w) "";
                 healmaps := list_to_map
                   ((λ fld : string * string, (fld.1, replicate (npix w) 0%Q))
                      <$> dtype) |} in
  add ← add_magellanic_clouds w; let self := add self in
  add ← add_lowdust_wfd w; let self := add self in
  add ← add_virgo_cluster w; let self := add self in
  add ← add_bulgy w; let self := add self in
  add ← add_nes w; let self := add self in
  add ← add_dusty_plane w; let self := add self in
  in_poly ← euclid_in_poly w;
  self ← add_euclid_overlap in_poly euclid_ratios "euclid_overlap" self;
  add ← add_scp w; let self := add self in
  OK self.

(** The [__main__] block. *)
Definition script (w : world) : result run :=
  a ← parse_args w;
  script_body generators return_maps a w.

End euclid_smudge.

(** ** Sample inputs *)

(** [generate_blobs(32, footprints=footprints)] with a footprints object. *)
Definition blobs_sample : blobs_args :=
  let d := blobs_defaults (Int 32) in
  {| b_nside := b_nside d; b_nexp := b_nexp d; b_exptime := b_exptime d;
     b_filter1s := b_filter1s d; b_filter2s := b_filter2s d;
     b_pair_time := b_pair_time d; b_camera_rot_limits := b_camera_rot_limits d;
     b_n_obs_template := b_n_obs_template d; b_season := b_season d;
     b_season_start_hour := b_season_start_hour d;
     b_season_end_hour := b_season_end_hour d;
     b_shadow_minutes := b_shadow_minutes d; b_max_alt := b_max_alt d;
     b_moon_distance := b_moon_distance d; b_ignore_obs := b_ignore_obs d;
     b_m5_weight := b_m5_weight d; b_footprint_weight := b_footprint_weight d;
     b_slewtime_weight := b_slewtime_weight d;
     b_stayfilter_weight := b_stayfilter_weight d;
     b_template_weight := b_template_weight d;
     b_u_template_weight := b_u_template_weight d;
     b_footprints := VObj "footprints"; b_u_nexp1 := b_u_nexp1 d;
     b_scheduled_respect := b_scheduled_respect d;
     b_good_seeing := b_good_seeing d;
     b_good_seeing_weight := b_good_seeing_weight d;
     b_mjd_start := b_mjd_start d; b_repeat_weight := b_repeat_weight d |}.

(** The same call with one pair of filters, the first of them not a key of
    [template_weights]. *)
Definition blobs_unknown_filter : blobs_args :=
  let d := blobs_sample in
  {| b_nside := b_nside d; b_nexp := b_nexp d; b_exptime := b_exptime d;
     b_filter1s := ["x"]; b_filter2s := [Some "g"];
     b_pair_time := b_pair_time d; b_camera_rot_limits := b_camera_rot_limits d;
     b_n_obs_template := b_n_obs_template d; b_season := b_season d;
     b_season_start_hour := b_season_start_hour d;
     b_season_end_hour := b_season_end_hour d;
     b_shadow_minutes := b_shadow_minutes d; b_max_alt := b_max_alt d;
     b_moon_distance := b_moon_distance d; b_ignore_obs := b_ignore_obs d;
     b_m5_weight := b_m5_weight d; b_footprint_weight := b_footprint_weight d;
     b_slewtime_weight := b_slewtime_weight d;
     b_stayfilter_weight := b_stayfilter_weight d;
     b_template_weight := b_template_weight d;
     b_u_template_weight := b_u_template_weight d;
     b_footprints := b_footprints d; b_u_nexp1 := b_u_nexp1 d;
     b_scheduled_respect := b_scheduled_respect d;
     b_good_seeing := b_good_seeing d;
     b_good_seeing_weight := b_good_seeing_weight d;
     b_mjd_start := b_mjd_start d; b_repeat_weight := b_repeat_weight d |}.

(** [generate_twi_blobs(32, footprints=footprints)], the last pair unpaired. *)
Definition twi_sample : twi_args :=
  let d := twi_defaults (Int 32) in
  {| t_nside := t_nside d; t_nexp := t_nexp d; t_exptime := t_exptime d;
     t_filter1s := t_filter1s d;
     t_filter2s := [Some "i"; Some "z"; Some "y"; None];
     t_pair_time := t_pair_time d; t_camera_rot_limits := t_camera_rot_limits d;
     t_n_obs_template := t_n_obs_template d; t_season := t_season d;
     t_season_start_hour := t_season_start_hour d;
     t_season_end_hour := t_season_end_hour d;
     t_shadow_minutes := t_shadow_minutes d; t_max_alt := t_max_alt d;
     t_moon_distance := t_moon_distance d; t_ignore_obs := t_ignore_obs d;
     t_m5_weight := t_m5_weight d; t_footprint_weight := t_footprint_weight d;
     t_slewtime_weight := t_slewtime_weight d;
     t_stayfilter_weight := t_stayfilter_weight d;
     t_template_weight := t_template_weight d;
     t_footprints := VObj "footprints";
     t_repeat_night_weight := t_repeat_night_weight d;
     t_wfd_footprint := t_wfd_footprint d;
     t_scheduled_respect := t_scheduled_respect d;
     t_repeat_weight := t_repeat_weight d;
     t_night_pattern := VList [VBool false; VBool true] |}.

Definition unwrap {A} (m : result (list A)) : list A :=
  match m with
  | OK l => l
  | Raise _ => []
  end.

Definition blobs_sample_surveys : list surveys.obj :=
  Eval vm_compute in unwrap (draft2_uzy_named.generate_blobs blobs_sample).

Definition twi_sample_surveys : list surveys.obj :=
  Eval vm_compute in unwrap (euclid_smudge.generate_twi_blobs twi_sample).

(** ** Vocabulary of the properties *)

(** What a paired or an unpaired survey carries for one class of basis
    function: the term for each filter with its share of the weight. *)
Definition shared_terms (mk : string → bf.obj) (weight : num)
    (filtername : string) (filtername2 : option string) : list (bf.obj * num) :=
  match filtername2 with
  | Some filtername2 =>
      [(mk filtername, truediv weight (Float 2));
       (mk filtername2, truediv weight (Float 2))]
  | None => [(mk filtername, weight)]
  end.

Definition M5Diff (nside : num) (filtername : string) : bf.obj :=
  bf.new bf.M5DiffBasisFunction [("filtername", VStr filtername); ("nside", VNum nside)].

Definition Footprint (nside : num) (footprints : pyval) (filtername : string) : bf.obj :=
  bf.new bf.FootprintBasisFunction
    [("filtername", VStr filtername); ("footprint", footprints);
     ("out_of_bounds_val", VNaN); ("nside", VNum nside)].

Definition of_class (c : bf.class) (bfs : list (bf.obj * num)) : list (bf.obj * num) :=
  filter (λ p, bf.cls p.1 = c) bfs.

(** The two scripts. *)
Definition is_script (G : generators) : Prop :=
  G = draft2_uzy_named.generators ∨ G = euclid_smudge.generators.

(** A survey whose lists were unpacked from [bfs]. *)
Definition unpacked_from (bfs : list (bf.obj * num)) (s : surveys.obj) : Prop :=
  surveys.basis_functions s = map fst bfs ∧ surveys.weights s = map snd bfs.

(** The M5-difference and footprint entries of the survey built for a pair
    of filters. *)
Definition carries_shared_terms (nside : num) (footprints : pyval)
    (m5_weight footprint_weight : num) (p : string * option string)
    (s : surveys.obj) : Prop :=
  entries_of bf.M5DiffBasisFunction s
    = shared_terms (M5Diff nside) m5_weight p.1 p.2
  ∧ entries_of bf.FootprintBasisFunction s
    = shared_terms (Footprint nside footprints) footprint_weight p.1 p.2.

(** The mask and constraint classes. *)
Definition is_mask (c : bf.class) : bool :=
  match c with
  | bf.ZenithShadowMaskBasisFunction
  | bf.MoonAvoidanceBasisFunction
  | bf.FilterLoadedBasisFunction
  | bf.PlanetMaskBasisFunction
  | bf.SolarElongationMaskBasisFunction
  | bf.NearSunTwilightBasisFunction
  | bf.NightModuloBasisFunction
  | bf.TimeToTwilightBasisFunction
  | bf.NotTwilightBasisFunction
  | bf.TimeToScheduledBasisFunction
  | bf.SunAltHighLimitBasisFunction => true
  | _ => false
  end.

(** The weight is the literal [0] or [0.]. *)
Definition zero_weight (w : num) : Prop := w = Int 0 ∨ w = Float 0.

Definition masks_weightless (bfs : list (bf.obj * num)) : Prop :=
  Forall (λ p, is_mask (bf.cls p.1) = true → zero_weight p.2) bfs.

(** A list of surveys returned by one of the four generators of a script. *)
Definition built_by (G : generators) (l : list surveys.obj) : Prop :=
  (∃ a, gen_GreedySurveys_of G a = OK l)
  ∨ (∃ a, generate_blobs_of G a = OK l)
  ∨ (∃ a, generate_twi_blobs_of G a = OK l)
  ∨ (∃ a, generate_twilight_neo_of G a = OK l).

(** [generate_twilight_neo(32)] with the defaults. *)
Definition neo_sample_surveys : list surveys.obj :=
  Eval vm_compute in unwrap (draft2_uzy_named.generate_twilight_neo (neo_defaults (Int 32))).

(** The keys of [template_weights]. *)
Definition template_filters : list string := ["u"; "g"; "r"; "i"; "z"; "y"].

(** The values that answer [get_footprint]. *)
Definition has_get_footprint (v : pyval) : Prop :=
  match v with
  | VObj _ | VConstantFootprint _ => True
  | _ => False
  end.

(** The arguments under which every iteration of [generate_blobs] runs to
    its end: rotation limits to take a minimum of, a footprints object, and
    paired filters that are keys of [template_weights]. *)
Definition blobs_ready (a : blobs_args) : Prop :=
  b_camera_rot_limits a ≠ []
  ∧ has_get_footprint (b_footprints a)
  ∧ Forall (λ p : string * option string,
              match p.2 with
              | Some filtername2 =>
                  p.1 ∈ template_filters ∧ filtername2 ∈ template_filters
              | None => True
              end) (zip (b_filter1s a) (b_filter2s a)).

(** One survey per loop item, of the given class, its two lists unpacked in
    step from the [bfs] list of that item. *)
Definition one_survey_each {A} (c : surveys.class)
    (bfs_of : A → result (list (bf.obj * num))) (items : list A)
    (l : list surveys.obj) : Prop :=
  length l = length items
  ∧ Forall2 (λ x s,
      surveys.cls s = c
      ∧ ∃ bfs, bfs_of x = OK bfs
          ∧ zip (surveys.basis_functions s) (surveys.weights s) = bfs
          ∧ length (surveys.basis_functions s) = length bfs
          ∧ length (surveys.weights s) = length bfs) items l.

(** The rows of the two Euclid deep fields. *)
Definition euclid_row (r : obs_row) : Prop :=
  note r = "DD:EDFS_a" ∨ note r = "DD:EDFS_b".

(** A sky of four pixels after the earlier [add_] methods: pixel 0 is
    labeled and outside the Euclid contour, pixel 1 unlabeled and inside,
    pixel 2 labeled and inside, pixel 3 unlabeled and outside. *)
Definition sky_sample : sky_maps := {|
  pix_labels := ["lowdust"; ""; "virgo"; ""];
  healmaps := {[ "u" := [0.32; 0; 0.32; 0]%Q; "g" := [0.4; 0; 0.4; 0]%Q;
                 "r" := [0.5; 0; 1.0; 0]%Q; "i" := [1.0; 0; 1.0; 0]%Q;
                 "z" := [0.9; 0; 0.9; 0]%Q; "y" := [0.9; 0; 0.9; 0]%Q ]}
|}.

Definition in_poly_sample : list bool := [false; true; true; false].

(** ** Failures of the environment *)

(** The calls of a run whose outcome the environment decides. *)
Inductive site :=
| parse_args_call
| git_rev_parse_call
| cat_hash_file_call
| sky_generator_call
| library_return_maps_call
| add_magellanic_clouds_call
| add_lowdust_wfd_call
| add_virgo_cluster_call
| add_bulgy_call
| add_nes_call
| add_dusty_plane_call
| euclid_in_poly_call
| add_scp_call
| ModelObservatory_call
| return_conditions_call
| make_rolling_footprints_call
| gen_long_gaps_survey_call
| generate_ddf_scheduled_obs_call
| CoreScheduler_call
| FilterSchedUzy_call
| ModelObservatory_run_call
| sim_runner_call.

Global Instance site_eq_dec : EqDecision site.
Proof. solve_decision. Defined.

Definition raised {A} (m : result A) : option exn :=
  match m with
  | Raise e => Some e
  | OK _ => None
  end.

(** The exception a call raises in a given environment, if any. *)
Definition fault (w : world) (s : site) : option exn :=
  match s with
  | parse_args_call => raised (parse_args w)
  | git_rev_parse_call => raised (check_output w git_command)
  | cat_hash_file_call =>
      match rubin_sim_path w with
      | rs_path :: _ => raised (check_output w ["cat"; hash_file rs_path])
      | [] => None
      end
  | sky_generator_call => raised (sky_generator w)
  | library_return_maps_call => raised (library_return_maps w)
  | add_magellanic_clouds_call => raised (add_magellanic_clouds w)
  | add_lowdust_wfd_call => raised (add_lowdust_wfd w)
  | add_virgo_cluster_call => raised (add_virgo_cluster w)
  | add_bulgy_call => raised (add_bulgy w)
  | add_nes_call => raised (add_nes w)
  | add_dusty_plane_call => raised (add_dusty_plane w)
  | euclid_in_poly_call => raised (euclid_in_poly w)
  | add_scp_call => raised (add_scp w)
  | ModelObservatory_call => raised (ModelObservatory w)
  | return_conditions_call => raised (return_conditions w)
  | make_rolling_footprints_call => raised (make_rolling_footprints w)
  | gen_long_gaps_survey_call => raised (gen_long_gaps_survey w)
  | generate_ddf_scheduled_obs_call => raised (generate_ddf_scheduled_obs w)
  | CoreScheduler_call => raised (CoreScheduler w)
  | FilterSchedUzy_call => raised (FilterSchedUzy w)
  | ModelObservatory_run_call => raised (ModelObservatory_run w)
  | sim_runner_call => raised (sim_runner w)
  end.

(** The calls each script makes, in program order. *)
Definition draft2_sites : list site :=
  [parse_args_call; git_rev_parse_call; cat_hash_file_call; sky_generator_call;
   library_return_maps_call; ModelObservatory_call; return_conditions_call;
   make_rolling_footprints_call; gen_long_gaps_survey_call;
   generate_ddf_scheduled_obs_call; CoreScheduler_call; FilterSchedUzy_call;
   ModelObservatory_run_call; sim_runner_call].

Definition euclid_sites : list site :=
  [parse_args_call; git_rev_parse_call; cat_hash_file_call; sky_generator_call;
   add_magellanic_clouds_call; add_lowdust_wfd_call; add_virgo_cluster_call;
   add_bulgy_call; add_nes_call; add_dusty_plane_call; euclid_in_poly_call;
   add_scp_call; ModelObservatory_call; return_conditions_call;
   make_rolling_footprints_call; gen_long_gaps_survey_call;
   generate_ddf_scheduled_obs_call; CoreScheduler_call; FilterSchedUzy_call;
   ModelObservatory_run_call; sim_runner_call].

(** The script survives exception [e] at call [s]: in some run where [s]
    raises [e] and no other call of the script raises, the script still comes
    to its end. *)
Definition survives (script : world → result run) (sites : list site)
    (s : site) (e : exn) : Prop :=
  ∃ w, fault w s = Some e
       ∧ (∀ s', s' ∈ sites → s' ≠ s → fault w s' = None)
       ∧ is_OK (script w).

(** The calls that retrieve a version-control hash. *)
Definition is_hash_retrieval (s : site) : Prop :=
  s = git_rev_parse_call ∨ s = cat_hash_file_call.

(** A script with the calls it makes. *)
Definition is_script_with_sites (script : world → result run) (sites : list site) : Prop :=
  (script = draft2_uzy_named.script ∧ sites = draft2_sites)
  ∨ (script = euclid_smudge.script ∧ sites = euclid_sites).

(** A run in which every call succeeds, but for the outcomes given to the
    two subprocesses. *)
Definition args_sample : args.t := {|
  args.verbose := false;
  args.survey_length := Float 3652.5;
  args.outDir := "";
  args.maxDither := Float 0.7;
  args.moon_illum_limit := Float 40;
  args.nexp := Int 2;
  args.rolling_nslice := Int 2;
  args.rolling_strength := Float 0.9;
  args.dbroot := None;
  args.gsw := Float 3.0;
  args.ddf_season_frac := Float 0.2;
  args.agg_level := "1.5";
  args.nights_off := 6;
  args.nights_delayed := Int (-1);
  args.neo_night_pattern := 4;
  args.neo_filters := "riz";
  args.neo_repeat := Int 4
|}.

Definition world_sample (git cat : result string) : world := {|
  sys_argv := ["draft2_uzy_named.py"];
  parse_args := OK args_sample;
  check_output := λ cmd, if decide (cmd = git_command) then git else cat;
  realpath_file := "/runs/draft2_uzy_named.py";
  rubin_sim_path := ["/lib/rubin_sim"];
  sky_generator := OK ();
  library_return_maps := OK sky_sample;
  npix := 4;
  add_magellanic_clouds := OK id;
  add_lowdust_wfd := OK (λ _, sky_sample);
  add_virgo_cluster := OK id;
  add_bulgy := OK id;
  add_nes := OK id;
  add_dusty_plane := OK id;
  euclid_in_poly := OK in_poly_sample;
  add_scp := OK id;
  ModelObservatory := OK ();
  return_conditions := OK {| mjd_start := Float 60218; sun_ra_start := Float 3.27 |};
  make_rolling_footprints := OK (VObj "footprints");
  gen_long_gaps_survey := OK (VObj "long_gaps");
  generate_ddf_scheduled_obs :=
    OK [{| note := "DD:ELAISS1"; columns := VNone |};
        {| note := "DD:EDFS_a"; columns := VNone |};
        {| note := "DD:EDFS_b"; columns := VNone |}];
  CoreScheduler := OK ();
  FilterSchedUzy := OK ();
  ModelObservatory_run := OK ();
  sim_runner := OK (VObj "observations")
|}.

(** The feasibility check of the library's [NightModuloBasisFunction]: the
    entry of the pattern for the night, counted modulo the pattern length. *)
Definition night_modulo_feasible (pattern : list bool) (night : Z) : option bool :=
  if decide (pattern = []) then None
  else pattern !! Z.to_nat (night `mod` Z.of_nat (length pattern)).

(** The [NightModuloBasisFunction] entry of a survey built with a pattern. *)
Definition night_modulo_entry (pattern : list bool) : bf.obj * num :=
  (bf.new bf.NightModuloBasisFunction [("pattern", bools pattern)], Int 0).

(** ** Equal argument values, identical configurations

    Python compares numbers by value ([3 == 3.0]); everything else in a
    configuration is compared part by part. *)

#[warnings="-register-all"]
Inductive pyval_eqv : pyval → pyval → Prop :=
| eqv_None : pyval_eqv VNone VNone
| eqv_Bool b : pyval_eqv (VBool b) (VBool b)
| eqv_Num a b : num_eqv a b → pyval_eqv (VNum a) (VNum b)
| eqv_NaN : pyval_eqv VNaN VNaN
| eqv_Str s : pyval_eqv (VStr s) (VStr s)
| eqv_Bytes s : pyval_eqv (VBytes s) (VBytes s)
| eqv_List l l' : Forall2 pyval_eqv l l' → pyval_eqv (VList l) (VList l')
| eqv_Obj id : pyval_eqv (VObj id) (VObj id)
| eqv_GetFootprint fp fp' filtername :
    pyval_eqv fp fp' →
    pyval_eqv (VGetFootprint fp filtername) (VGetFootprint fp' filtername)
| eqv_EclipticTarget nside nside' dist dist' dec_max dec_max' mask mask' :
    num_eqv nside nside' → num_eqv dist dist' → num_eqv dec_max dec_max' →
    pyval_eqv mask mask' →
    pyval_eqv (VEclipticTarget nside dist dec_max mask)
              (VEclipticTarget nside' dist' dec_max' mask')
| eqv_ConstantFootprint entries entries' :
    Forall2 (λ x y, x.1 = y.1 ∧ pyval_eqv x.2 y.2) entries entries' →
    pyval_eqv (VConstantFootprint entries) (VConstantFootprint entries').

Definition kwargs_eqv : relation kwargs :=
  Forall2 (λ x y, x.1 = y.1 ∧ pyval_eqv x.2 y.2).

Definition bf_eqv (x y : bf.obj) : Prop :=
  bf.cls x = bf.cls y ∧ kwargs_eqv (bf.kw x) (bf.kw y).

Definition detailer_eqv (x y : detailers.obj) : Prop :=
  detailers.cls x = detailers.cls y ∧ kwargs_eqv (detailers.kw x) (detailers.kw y).

Definition weighted_eqv (x y : bf.obj * num) : Prop :=
  bf_eqv x.1 y.1 ∧ num_eqv x.2 y.2.

(** The same survey configuration: the same class, the same basis functions
    with the same parameters, the same weights, the same detailers and the
    same keyword arguments, each list in the same order. *)
Definition survey_eqv (x y : surveys.obj) : Prop :=
  surveys.cls x = surveys.cls y
  ∧ Forall2 bf_eqv (surveys.basis_functions x) (surveys.basis_functions y)
  ∧ Forall2 num_eqv (surveys.weights x) (surveys.weights y)
  ∧ Forall2 detailer_eqv (surveys.detailers x) (surveys.detailers y)
  ∧ kwargs_eqv (surveys.kw x) (surveys.kw y).

(** Two calls end alike: both return, with related values, or both raise
    the same exception. *)
Definition result_eqv {A} (R : relation A) (x y : result A) : Prop :=
  match x, y with
  | OK a, OK b => R a b
  | Raise e, Raise e' => e = e'
  | _, _ => False
  end.

Definition greedy_args_eqv (a a' : greedy_args) : Prop :=
  num_eqv (g_nside a) (g_nside a')
  ∧ num_eqv (g_nexp a) (g_nexp a')
  ∧ num_eqv (g_exptime a) (g_exptime a')
  ∧ g_filters a = g_filters a'
  ∧ Forall2 num_eqv (g_camera_rot_limits a) (g_camera_rot_limits a')
  ∧ num_eqv (g_shadow_minutes a) (g_shadow_minutes a')
  ∧ num_eqv (g_max_alt a) (g_max_alt a')
  ∧ num_eqv (g_moon_distance a) (g_moon_distance a')
  ∧ pyval_eqv (g_ignore_obs a) (g_ignore_obs a')
  ∧ num_eqv (g_m5_weight a) (g_m5_weight a')
  ∧ num_eqv (g_footprint_weight a) (g_footprint_weight a')
  ∧ num_eqv (g_slewtime_weight a) (g_slewtime_weight a')
  ∧ num_eqv (g_stayfilter_weight a) (g_stayfilter_weight a')
  ∧ num_eqv (g_repeat_weight a) (g_repeat_weight a')
  ∧ pyval_eqv (g_footprints a) (g_footprints a').

Definition blobs_args_eqv (a a' : blobs_args) : Prop :=
  num_eqv (b_nside a) (b_nside a')
  ∧ num_eqv (b_nexp a) (b_nexp a')
  ∧ num_eqv (b_exptime a) (b_exptime a')
  ∧ b_filter1s a = b_filter1s a'
  ∧ b_filter2s a = b_filter2s a'
  ∧ num_eqv (b_pair_time a) (b_pair_time a')
  ∧ Forall2 num_eqv (b_camera_rot_limits a) (b_camera_rot_limits a')
  ∧ num_eqv (b_n_obs_template a) (b_n_obs_template a')
  ∧ num_eqv (b_season a) (b_season a')
  ∧ num_eqv (b_season_start_hour a) (b_season_start_hour a')
  ∧ num_eqv (b_season_end_hour a) (b_season_end_hour a')
  ∧ num_eqv (b_shadow_minutes a) (b_shadow_minutes a')
  ∧ num_eqv (b_max_alt a) (b_max_alt a')
  ∧ num_eqv (b_moon_distance a) (b_moon_distance a')
  ∧ pyval_eqv (b_ignore_obs a) (b_ignore_obs a')
  ∧ num_eqv (b_m5_weight a) (b_m5_weight a')
  ∧ num_eqv (b_footprint_weight a) (b_footprint_weight a')
  ∧ num_eqv (b_slewtime_weight a) (b_slewtime_weight a')
  ∧ num_eqv (b_stayfilter_weight a) (b_stayfilter_weight a')
  ∧ num_eqv (b_template_weight a) (b_template_weight a')
  ∧ num_eqv (b_u_template_weight a) (b_u_template_weight a')
  ∧ pyval_eqv (b_footprints a) (b_footprints a')
  ∧ b_u_nexp1 a = b_u_nexp1 a'
  ∧ num_eqv (b_scheduled_respect a) (b_scheduled_respect a')
  ∧ (∀ k, option_Forall2 num_eqv (b_good_seeing a !! k) (b_good_seeing a' !! k))
  ∧ num_eqv (b_good_seeing_weight a) (b_good_seeing_weight a')
  ∧ num_eqv (b_mjd_start a) (b_mjd_start a')
  ∧ num_eqv (b_repeat_weight a) (b_repeat_weight a').

Definition twi_args_eqv (a a' : twi_args) : Prop :=
  num_eqv (t_nside a) (t_nside a')
  ∧ num_eqv (t_nexp a) (t_nexp a')
  ∧ num_eqv (t_exptime a) (t_exptime a')
  ∧ t_filter1s a = t_filter1s a'
  ∧ t_filter2s a = t_filter2s a'
  ∧ num_eqv (t_pair_time a) (t_pair_time a')
  ∧ Forall2 num_eqv (t_camera_rot_limits a) (t_camera_rot_limits a')
  ∧ num_eqv (t_n_obs_template a) (t_n_obs_template a')
  ∧ num_eqv (t_season a) (t_season a')
  ∧ num_eqv (t_season_start_hour a) (t_season_start_hour a')
  ∧ num_eqv (t_season_end_hour a) (t_season_end_hour a')
  ∧ num_eqv (t_shadow_minutes a) (t_shadow_minutes a')
  ∧ num_eqv (t_max_alt a) (t_max_alt a')
  ∧ num_eqv (t_moon_distance a) (t_moon_distance a')
  ∧ pyval_eqv (t_ignore_obs a) (t_ignore_obs a')
  ∧ num_eqv (t_m5_weight a) (t_m5_weight a')
  ∧ num_eqv (t_footprint_weight a) (t_footprint_weight a')
  ∧ num_eqv (t_slewtime_weight a) (t_slewtime_weight a')
  ∧ num_eqv (t_stayfilter_weight a) (t_stayfilter_weight a')
  ∧ num_eqv (t_template_weight a) (t_template_weight a')
  ∧ pyval_eqv (t_footprints a) (t_footprints a')
  ∧ option_Forall2 num_eqv (t_repeat_night_weight a) (t_repeat_night_weight a')
  ∧ pyval_eqv (t_wfd_footprint a) (t_wfd_footprint a')
  ∧ num_eqv (t_scheduled_respect a) (t_scheduled_respect a')
  ∧ num_eqv (t_repeat_weight a) (t_repeat_weight a')
  ∧ pyval_eqv (t_night_pattern a) (t_night_pattern a').

Definition neo_args_eqv (a a' : neo_args) : Prop :=
  num_eqv (n_nside a) (n_nside a')
  ∧ pyval_eqv (n_night_pattern a) (n_night_pattern a')
  ∧ num_eqv (n_nexp a) (n_nexp a')
  ∧ num_eqv (n_exptime a) (n_exptime a')
  ∧ num_eqv (n_ideal_pair_time a) (n_ideal_pair_time a')
  ∧ num_eqv (n_max_airmass a) (n_max_airmass a')
  ∧ Forall2 num_eqv (n_camera_rot_limits a) (n_camera_rot_limits a')
  ∧ num_eqv (n_time_needed a) (n_time_needed a')
  ∧ pyval_eqv (n_footprint_mask a) (n_footprint_mask a')
  ∧ num_eqv (n_footprint_weight a) (n_footprint_weight a')
  ∧ num_eqv (n_slewtime_weight a) (n_slewtime_weight a')
  ∧ num_eqv (n_stayfilter_weight a) (n_stayfilter_weight a')
  ∧ pyval_eqv (n_area_required a) (n_area_required a')
  ∧ n_filters a = n_filters a'
  ∧ num_eqv (n_n_repeat a) (n_n_repeat a')
  ∧ num_eqv (n_sun_alt_limit a) (n_sun_alt_limit a').

(** [gen_GreedySurveys()] called with the floats of the defaults written as
    integers: [m5_weight=3], [slewtime_weight=3], [exptime=30]. *)
Definition greedy_ints : greedy_args :=
  let d := greedy_defaults in
  {| g_nside := g_nside d; g_nexp := g_nexp d; g_exptime := Int 30;
     g_filters := g_filters d; g_camera_rot_limits := [Int (-80); Float 80];
     g_shadow_minutes := g_shadow_minutes d; g_max_alt := g_max_alt d;
     g_moon_distance := g_moon_distance d; g_ignore_obs := g_ignore_obs d;
     g_m5_weight := Int 3; g_footprint_weight := g_footprint_weight d;
     g_slewtime_weight := Int 3; g_stayfilter_weight := g_stayfilter_weight d;
     g_repeat_weight := g_repeat_weight d; g_footprints := g_footprints d |}.



(** * Properties *)

(** ** Loops and binds *)

Lemma bind_OK {A B} (m : result A) (k : A → result B) b :
  m ≫= k = OK b ↔ ∃ a, m = OK a ∧ k a = OK b.
Proof.
  destruct m as [a|e]; simpl; split.
  - intros H. exists a. split; [reflexivity|exact H].
  - intros (a' & Ha & Hk). injection Ha as ->. exact Hk.
  - discriminate.
  - intros (a' & Ha & _). discriminate.
Qed.

Lemma for_each_OK {A B} (body : A → result B) l r :
  for_each body l = OK r ↔ Forall2 (λ x y, body x = OK y) l r.
Proof.
  unfold for_each. revert r. induction l as [|x l IH]; intros r; simpl.
  - split.
    + intros [= <-]. constructor.
    + intros H. inversion H. reflexivity.
  - split.
    + intros H. apply bind_OK in H as (y & Hy & H).
      apply bind_OK in H as (k & Hk & H). injection H as <-.
      constructor; [exact Hy|]. apply IH, Hk.
    + intros H. inversion H as [|? y ? k Hy Hk]; subst.
      apply IH in Hk. change (mapM body (x :: l)) with
        (body x ≫= λ y, mapM body l ≫= λ k, OK (y :: k)).
      rewrite Hy. simpl. rewrite Hk. reflexivity.
Qed.

Lemma for_each_length {A B} (body : A → result B) l r :
  for_each body l = OK r → length r = length l.
Proof. intros H. apply for_each_OK in H. symmetry. eapply Forall2_length, H. Qed.

Lemma for_each_total {A B} (body : A → result B) l :
  Forall (λ x, is_OK (body x)) l → is_OK (for_each body l).
Proof.
  induction 1 as [|x l [y Hy] _ [k Hk]].
  - exists []. reflexivity.
  - exists (y :: k). apply for_each_OK. constructor; [exact Hy|].
    apply for_each_OK, Hk.
Qed.

Lemma zip_fst_snd_id {A B} (l : list (A * B)) : zip (map fst l) (map snd l) = l.
Proof. induction l as [|[a b] l IH]; simpl; [reflexivity|]. rewrite IH. reflexivity. Qed.

(** ** The basis-function lists of the blob surveys *)

Ltac crack_bfs :=
  repeat match goal with
  | |- context [match ?x with _ => _ end] => destruct x eqn:?; simpl
  end.

Lemma blob_bfs_terms a filtername filtername2 bfs :
  blob_bfs a filtername filtername2 = OK bfs →
  of_class bf.M5DiffBasisFunction bfs
    = shared_terms (M5Diff (b_nside a)) (b_m5_weight a) filtername filtername2
  ∧ of_class bf.FootprintBasisFunction bfs
    = shared_terms (Footprint (b_nside a) (b_footprints a)) (b_footprint_weight a)
        filtername filtername2.
Proof.
  unfold blob_bfs, get_footprint, getitem.
  destruct filtername2 as [filtername2|]; simpl; crack_bfs;
    try discriminate; intros [= <-]; split; reflexivity.
Qed.

Lemma twi_blob_bfs_terms a filtername filtername2 bfs :
  twi_blob_bfs a filtername filtername2 = OK bfs →
  of_class bf.M5DiffBasisFunction bfs
    = shared_terms (M5Diff (t_nside a)) (t_m5_weight a) filtername filtername2
  ∧ of_class bf.FootprintBasisFunction bfs
    = shared_terms (Footprint (t_nside a) (t_footprints a)) (t_footprint_weight a)
        filtername filtername2.
Proof.
  unfold twi_blob_bfs, get_footprint.
  destruct filtername2 as [filtername2|]; simpl; crack_bfs;
    try discriminate; intros [= <-]; split; reflexivity.
Qed.

Lemma for_each_Forall {A B} (body : A → result B) (P : B → Prop) l r :
  for_each body l = OK r → (∀ x y, body x = OK y → P y) → Forall P r.
Proof.
  intros H HP. apply for_each_OK in H.
  induction H; constructor; eauto.
Qed.

Lemma for_each_Forall2 {A B} (body : A → result B) (P : A → B → Prop) l r :
  for_each body l = OK r → (∀ x y, body x = OK y → P x y) → Forall2 P l r.
Proof.
  intros H HP. apply for_each_OK in H.
  induction H; constructor; eauto.
Qed.

Lemma unpacked_entries bfs s c :
  unpacked_from bfs s → entries_of c s = of_class c bfs.
Proof.
  intros [Hb Hw]. unfold entries_of, of_class. rewrite Hb, Hw, zip_fst_snd_id.
  reflexivity.
Qed.

(** One iteration of each loop, inverted. *)
Lemma greedy_survey G a l :
  is_script G → gen_GreedySurveys_of G a = OK l →
  Forall2 (λ filtername s,
    surveys.cls s = surveys.GreedySurvey
    ∧ unpacked_from (greedy_bfs a filtername) s
    ∧ greedy_detailer_list a = OK (surveys.detailers s)) (g_filters a) l.
Proof.
  intros HG H.
  assert (H' : draft2_uzy_named.gen_GreedySurveys a = OK l ∨ euclid_smudge.gen_GreedySurveys a = OK l)
    by (destruct HG; subst G; [left|right]; exact H).
  clear H HG. unfold draft2_uzy_named.gen_GreedySurveys, euclid_smudge.gen_GreedySurveys in H'.
  destruct H' as [H|H]; apply bind_OK in H as (dl & Hdl & H);
    refine (for_each_Forall2 _ _ _ _ H _);
    intros x y [= <-]; simpl; repeat split; assumption.
Qed.

Lemma blob_survey G a l :
  is_script G → generate_blobs_of G a = OK l →
  Forall2 (λ p s,
    surveys.cls s = surveys.BlobSurvey
    ∧ ∃ bfs, blob_bfs a p.1 p.2 = OK bfs ∧ unpacked_from bfs s)
    (zip (b_filter1s a) (b_filter2s a)) l.
Proof.
  intros HG H.
  assert (H' : draft2_uzy_named.generate_blobs a = OK l ∨ euclid_smudge.generate_blobs a = OK l)
    by (destruct HG; subst G; [left|right]; exact H).
  clear H HG. unfold draft2_uzy_named.generate_blobs, euclid_smudge.generate_blobs in H'.
  destruct H' as [H|H]; refine (for_each_Forall2 _ _ _ _ H _);
    intros [f1 f2] y Hy; simpl in Hy;
    apply bind_OK in Hy as (dl & Hdl & Hy);
    apply bind_OK in Hy as (bfs & Hbfs & Hy);
    injection Hy as <-; simpl; (split; [reflexivity|]);
    exists bfs; repeat split; assumption.
Qed.

Lemma twi_blob_survey G a l :
  is_script G → generate_twi_blobs_of G a = OK l →
  Forall2 (λ p s,
    surveys.cls s = surveys.BlobSurvey
    ∧ ∃ bfs, twi_blob_bfs a p.1 p.2 = OK bfs ∧ unpacked_from bfs s)
    (zip (t_filter1s a) (t_filter2s a)) l.
Proof.
  intros HG H.
  assert (H' : draft2_uzy_named.generate_twi_blobs a = OK l ∨ euclid_smudge.generate_twi_blobs a = OK l)
    by (destruct HG; subst G; [left|right]; exact H).
  clear H HG. unfold draft2_uzy_named.generate_twi_blobs, euclid_smudge.generate_twi_blobs in H'.
  destruct H' as [H|H]; refine (for_each_Forall2 _ _ _ _ H _);
    intros [f1 f2] y Hy; simpl in Hy;
    apply bind_OK in Hy as (dl & Hdl & Hy);
    apply bind_OK in Hy as (bfs & Hbfs & Hy);
    injection Hy as <-; simpl; (split; [reflexivity|]);
    exists bfs; repeat split; assumption.
Qed.

Lemma neo_survey G a l :
  is_script G → generate_twilight_neo_of G a = OK l →
  Forall2 (λ filtername s,
    surveys.cls s = surveys.BlobSurvey
    ∧ unpacked_from (neo_bfs a (neo_constant_fp a) filtername) s)
    (chars (n_filters a)) l.
Proof.
  intros HG H.
  assert (H' : draft2_uzy_named.generate_twilight_neo a = OK l ∨ euclid_smudge.generate_twilight_neo a = OK l)
    by (destruct HG; subst G; [left|right]; exact H).
  clear H HG. unfold draft2_uzy_named.generate_twilight_neo, euclid_smudge.generate_twilight_neo in H'.
  destruct H' as [H|H]; refine (for_each_Forall2 _ _ _ _ H _);
    intros x y Hy; simpl in Hy;
    apply bind_OK in Hy as (dl & Hdl & Hy);
    injection Hy as <-; simpl; repeat split; reflexivity.
Qed.

(** C1.  In [generate_blobs] and [generate_twi_blobs] of either script, the
    survey built for a pair [(filtername, filtername2)] carries, when
    [filtername2] is not [None], two [M5DiffBasisFunction] entries (one per
    filter) each at [m5_weight/2] and two [FootprintBasisFunction] entries
    each at [footprint_weight/2]; when it is [None], exactly one of each at
    the full weight. *)
Theorem C1_paired_terms_at_half_weight G :
  is_script G →
  (∀ a l, generate_blobs_of G a = OK l →
     Forall2 (carries_shared_terms (b_nside a) (b_footprints a)
                (b_m5_weight a) (b_footprint_weight a))
       (zip (b_filter1s a) (b_filter2s a)) l)
  ∧ (∀ a l, generate_twi_blobs_of G a = OK l →
     Forall2 (carries_shared_terms (t_nside a) (t_footprints a)
                (t_m5_weight a) (t_footprint_weight a))
       (zip (t_filter1s a) (t_filter2s a)) l).
Proof.
  intros HG. split; intros a l H.
  - eapply Forall2_impl; [exact (blob_survey G a l HG H)|].
    intros p s (_ & bfs & Hbfs & Hs). unfold carries_shared_terms.
    rewrite !(unpacked_entries bfs s) by exact Hs.
    exact (blob_bfs_terms a p.1 p.2 bfs Hbfs).
  - eapply Forall2_impl; [exact (twi_blob_survey G a l HG H)|].
    intros p s (_ & bfs & Hbfs & Hs). unfold carries_shared_terms.
    rewrite !(unpacked_entries bfs s) by exact Hs.
    exact (twi_blob_bfs_terms a p.1 p.2 bfs Hbfs).
Qed.

Lemma C1_witness :
  Forall2 (carries_shared_terms (Int 32) (VObj "footprints") (Float 6) (Float 1.5))
    (zip (b_filter1s blobs_sample) (b_filter2s blobs_sample)) blobs_sample_surveys
  ∧ Forall2 (carries_shared_terms (Int 32) (VObj "footprints") (Float 6) (Float 1.5))
    (zip (t_filter1s twi_sample) (t_filter2s twi_sample)) twi_sample_surveys.
Proof.
  split.
  - apply (proj1 (C1_paired_terms_at_half_weight draft2_uzy_named.generators
                    (or_introl eq_refl)) blobs_sample).
    vm_compute. reflexivity.
  - apply (proj2 (C1_paired_terms_at_half_weight euclid_smudge.generators
                    (or_intror eq_refl)) twi_sample).
    vm_compute. reflexivity.
Defined.

(** ** Masks carry no weight *)

Ltac weigh_masks :=
  repeat (apply Forall_cons_2;
          [simpl; intros Hm;
           first [discriminate Hm | left; reflexivity | right; reflexivity]|]);
  apply Forall_nil_2.

Lemma greedy_bfs_masks a filtername : masks_weightless (greedy_bfs a filtername).
Proof.
  unfold masks_weightless, greedy_bfs, zero_weight. simpl. weigh_masks.
Qed.

Lemma neo_bfs_masks a fp filtername : masks_weightless (neo_bfs a fp filtername).
Proof.
  unfold masks_weightless, neo_bfs, zero_weight. simpl. weigh_masks.
Qed.

Lemma blob_bfs_masks a filtername filtername2 bfs :
  blob_bfs a filtername filtername2 = OK bfs → masks_weightless bfs.
Proof.
  unfold masks_weightless, blob_bfs, get_footprint, getitem, zero_weight.
  destruct filtername2 as [filtername2|]; simpl; crack_bfs;
    try discriminate; intros [= <-];
    weigh_masks.
Qed.

Lemma twi_blob_bfs_masks a filtername filtername2 bfs :
  twi_blob_bfs a filtername filtername2 = OK bfs → masks_weightless bfs.
Proof.
  unfold masks_weightless, twi_blob_bfs, get_footprint, zero_weight.
  destruct filtername2 as [filtername2|]; simpl; crack_bfs;
    try discriminate; intros [= <-];
    weigh_masks.
Qed.

Lemma unpacked_zip bfs s :
  unpacked_from bfs s → zip (surveys.basis_functions s) (surveys.weights s) = bfs.
Proof. intros [-> ->]. apply zip_fst_snd_id. Qed.

(** C2.  In every survey built by [gen_GreedySurveys], [generate_blobs],
    [generate_twi_blobs] and [generate_twilight_neo] of either script, each
    mask or constraint basis function (zenith shadow, moon avoidance, filter
    loaded, planet mask, solar elongation, near-sun twilight, night modulo,
    time to twilight, not twilight, time to scheduled, sun altitude limit)
    sits in the lists with weight exactly 0. *)
Theorem C2_masks_have_zero_weight G l :
  is_script G → built_by G l →
  Forall (λ s, masks_weightless
                 (zip (surveys.basis_functions s) (surveys.weights s))) l.
Proof.
  intros HG [[a H] | [[a H] | [[a H] | [a H]]]].
  - eapply Forall2_Forall_r; [exact (greedy_survey G a l HG H)|].
    apply Forall_true. intros s filtername (_ & Hs & _).
    rewrite (unpacked_zip _ _ Hs). apply greedy_bfs_masks.
  - eapply Forall2_Forall_r; [exact (blob_survey G a l HG H)|].
    apply Forall_true. intros s p (_ & bfs & Hbfs & Hs).
    rewrite (unpacked_zip _ _ Hs). exact (blob_bfs_masks _ _ _ _ Hbfs).
  - eapply Forall2_Forall_r; [exact (twi_blob_survey G a l HG H)|].
    apply Forall_true. intros s p (_ & bfs & Hbfs & Hs).
    rewrite (unpacked_zip _ _ Hs). exact (twi_blob_bfs_masks _ _ _ _ Hbfs).
  - eapply Forall2_Forall_r; [exact (neo_survey G a l HG H)|].
    apply Forall_true. intros s filtername (_ & Hs).
    rewrite (unpacked_zip _ _ Hs). apply neo_bfs_masks.
Qed.

Lemma C2_witness :
  Forall (λ s, masks_weightless
                 (zip (surveys.basis_functions s) (surveys.weights s)))
    neo_sample_surveys.
Proof.
  apply (C2_masks_have_zero_weight draft2_uzy_named.generators neo_sample_surveys).
  - left. reflexivity.
  - right. right. right. exists (neo_defaults (Int 32)). vm_compute. reflexivity.
Defined.

(** ** How many surveys, and how long their lists *)

Lemma np_array_nil l : np_array l = [] → l = [].
Proof.
  unfold np_array. destruct (forallb is_int l); [trivial|].
  destruct l; [trivial|discriminate].
Qed.

Lemma np_min_OK l : l ≠ [] → is_OK (np_min l).
Proof.
  intros Hl. unfold np_min. destruct (np_array l) eqn:E.
  - apply np_array_nil in E. contradiction.
  - eexists. reflexivity.
Qed.

Lemma np_max_OK l : l ≠ [] → is_OK (np_max l).
Proof.
  intros Hl. unfold np_max. destruct (np_array l) eqn:E.
  - apply np_array_nil in E. contradiction.
  - eexists. reflexivity.
Qed.

Lemma greedy_detailer_list_OK a :
  g_camera_rot_limits a ≠ [] → is_OK (greedy_detailer_list a).
Proof.
  intros Hl. unfold greedy_detailer_list.
  destruct (np_min_OK _ Hl) as [lo ->], (np_max_OK _ Hl) as [hi ->].
  eexists. reflexivity.
Qed.

Lemma blob_detailer_list_OK limits : limits ≠ [] → is_OK (blob_detailer_list limits).
Proof.
  intros Hl. unfold blob_detailer_list.
  destruct (np_min_OK _ Hl) as [lo ->], (np_max_OK _ Hl) as [hi ->].
  eexists. reflexivity.
Qed.

Lemma template_weights_known a filtername :
  filtername ∈ template_filters → is_OK (getitem (template_weights a) filtername).
Proof.
  unfold template_filters. intros H.
  repeat (apply elem_of_cons in H as [-> | H]; [eexists; reflexivity|]).
  inversion H.
Qed.

Lemma get_footprint_OK fp filtername :
  has_get_footprint fp → get_footprint fp filtername = OK (VGetFootprint fp filtername).
Proof. destruct fp; simpl; intros H; (reflexivity || contradiction). Qed.

Lemma blob_bfs_OK a filtername filtername2 :
  has_get_footprint (b_footprints a) →
  match filtername2 with
  | Some filtername2 =>
      filtername ∈ template_filters ∧ filtername2 ∈ template_filters
  | None => True
  end →
  is_OK (blob_bfs a filtername filtername2).
Proof.
  intros Hfp Hkeys. unfold blob_bfs.
  destruct filtername2 as [filtername2|].
  - destruct Hkeys as [H1 H2].
    destruct (template_weights_known a _ H1) as [w1 Hw1].
    destruct (template_weights_known a _ H2) as [w2 Hw2].
    rewrite !(get_footprint_OK _ _ Hfp), Hw1, Hw2. simpl.
    destruct (b_good_seeing a !! filtername); simpl;
      rewrite ?(get_footprint_OK _ _ Hfp); simpl;
      destruct (b_good_seeing a !! filtername2); simpl;
      rewrite ?(get_footprint_OK _ _ Hfp); simpl; eexists; reflexivity.
  - rewrite !(get_footprint_OK _ _ Hfp). simpl.
    destruct (b_good_seeing a !! filtername); simpl;
      rewrite ?(get_footprint_OK _ _ Hfp); simpl; eexists; reflexivity.
Qed.

Lemma unpacked_lengths bfs s :
  unpacked_from bfs s →
  length (surveys.basis_functions s) = length bfs
  ∧ length (surveys.weights s) = length bfs.
Proof. intros [-> ->]. rewrite !length_map. split; reflexivity. Qed.

Lemma gen_GreedySurveys_OK G a :
  is_script G → g_camera_rot_limits a ≠ [] → is_OK (gen_GreedySurveys_of G a).
Proof.
  intros HG Hl. destruct (greedy_detailer_list_OK a Hl) as [dl Hdl].
  destruct HG; subst G; simpl;
    [unfold draft2_uzy_named.gen_GreedySurveys
    |unfold euclid_smudge.gen_GreedySurveys];
    rewrite Hdl; simpl; apply for_each_total, Forall_true;
    intros filtername; eexists; reflexivity.
Qed.

Lemma generate_blobs_OK G a :
  is_script G → blobs_ready a → is_OK (generate_blobs_of G a).
Proof.
  intros HG (Hl & Hfp & Hkeys).
  destruct (blob_detailer_list_OK _ Hl) as [dl Hdl].
  assert (Hbody : Forall (λ p : string * option string,
                            is_OK (blob_bfs a p.1 p.2))
                    (zip (b_filter1s a) (b_filter2s a))).
  { eapply Forall_impl; [exact Hkeys|]. intros [f1 f2] H. simpl in *.
    apply blob_bfs_OK; assumption. }
  destruct HG; subst G; simpl;
    [unfold draft2_uzy_named.generate_blobs
    |unfold euclid_smudge.generate_blobs];
    apply for_each_total; (eapply Forall_impl; [exact Hbody|]);
    intros [f1 f2] [bfs Hbfs]; simpl in *; rewrite Hdl, Hbfs; simpl;
    eexists; reflexivity.
Qed.

(** C3, as the code has it.  For every list of filters and non-empty
    rotation limits, [gen_GreedySurveys] returns exactly one [GreedySurvey]
    per element of [filters], each with exactly 9 basis-function/weight
    pairs.  [generate_blobs] returns exactly one [BlobSurvey] per zipped
    [(filter1s, filter2s)] pair (7 with the default filter lists) when it is
    given a footprints object, non-empty rotation limits and, for the paired
    entries, filter names that are keys of [template_weights].  In every
    survey of every generator the weights list has the length and the order
    of the basis-function list. *)
Theorem C3_one_survey_per_filter G :
  is_script G →
  (∀ a, g_camera_rot_limits a ≠ [] →
     ∃ l, gen_GreedySurveys_of G a = OK l
       ∧ one_survey_each surveys.GreedySurvey (λ filtername, OK (greedy_bfs a filtername))
           (g_filters a) l
       ∧ Forall (λ s, length (surveys.basis_functions s) = 9%nat
                      ∧ length (surveys.weights s) = 9%nat) l)
  ∧ (∀ a, blobs_ready a →
     ∃ l, generate_blobs_of G a = OK l
       ∧ one_survey_each surveys.BlobSurvey (λ p, blob_bfs a p.1 p.2)
           (zip (b_filter1s a) (b_filter2s a)) l
       ∧ (b_filter1s a = b_filter1s (blobs_defaults (b_nside a)) →
          b_filter2s a = b_filter2s (blobs_defaults (b_nside a)) →
          length l = 7%nat))
  ∧ (∀ l, built_by G l →
     Forall (λ s, length (surveys.weights s) = length (surveys.basis_functions s)) l).
Proof.
  intros HG. split; [|split].
  - intros a Hl. destruct (gen_GreedySurveys_OK G a HG Hl) as [l H].
    exists l. split; [exact H|].
    pose proof (greedy_survey G a l HG H) as Hs. split; [split|].
    + symmetry. exact (Forall2_length _ _ _ Hs).
    + eapply Forall2_impl; [exact Hs|]. intros x s (Hc & Hu & _).
      split; [exact Hc|]. exists (greedy_bfs a x).
      split; [reflexivity|]. split; [exact (unpacked_zip _ _ Hu)|].
      exact (unpacked_lengths _ _ Hu).
    + eapply Forall2_Forall_r; [exact Hs|]. apply Forall_true.
      intros x s (_ & Hu & _). exact (unpacked_lengths _ _ Hu).
  - intros a Hready. destruct (generate_blobs_OK G a HG Hready) as [l H].
    exists l. split; [exact H|].
    pose proof (blob_survey G a l HG H) as Hs.
    assert (Hlen : length l = length (zip (b_filter1s a) (b_filter2s a)))
      by (symmetry; exact (Forall2_length _ _ _ Hs)).
    split; [split; [exact Hlen|]|].
    + eapply Forall2_impl; [exact Hs|]. intros x s (Hc & bfs & Hbfs & Hu).
      split; [exact Hc|]. exists bfs.
      split; [exact Hbfs|]. split; [exact (unpacked_zip _ _ Hu)|].
      exact (unpacked_lengths _ _ Hu).
    + intros H1 H2. rewrite Hlen, H1, H2. reflexivity.
  - intros l [[a H] | [[a H] | [[a H] | [a H]]]].
    + eapply Forall2_Forall_r; [exact (greedy_survey G a l HG H)|].
      apply Forall_true. intros x s (_ & Hu & _).
      destruct (unpacked_lengths _ _ Hu) as [-> ->]. reflexivity.
    + eapply Forall2_Forall_r; [exact (blob_survey G a l HG H)|].
      apply Forall_true. intros x s (_ & bfs & _ & Hu).
      destruct (unpacked_lengths _ _ Hu) as [-> ->]. reflexivity.
    + eapply Forall2_Forall_r; [exact (twi_blob_survey G a l HG H)|].
      apply Forall_true. intros x s (_ & bfs & _ & Hu).
      destruct (unpacked_lengths _ _ Hu) as [-> ->]. reflexivity.
    + eapply Forall2_Forall_r; [exact (neo_survey G a l HG H)|].
      apply Forall_true. intros x s (_ & Hu).
      destruct (unpacked_lengths _ _ Hu) as [-> ->]. reflexivity.
Qed.

(** C3 as stated fails: with one zipped pair whose first filter is not a
    key of [template_weights], [generate_blobs] raises [KeyError] and
    returns no survey; with every argument but [nside] left at its default,
    [footprints] is [None] and the call raises [AttributeError]. *)
Lemma C3_counterexample :
  length (zip (b_filter1s blobs_unknown_filter) (b_filter2s blobs_unknown_filter)) = 1%nat
  ∧ draft2_uzy_named.generate_blobs blobs_unknown_filter = Raise KeyError
  ∧ draft2_uzy_named.generate_blobs (blobs_defaults (Int 32)) = Raise AttributeError
  ∧ ¬ (∀ a, ∃ l, draft2_uzy_named.generate_blobs a = OK l
                 ∧ length l = length (zip (b_filter1s a) (b_filter2s a))).
Proof.
  split; [reflexivity|]. split; [vm_compute; reflexivity|].
  split; [vm_compute; reflexivity|].
  intros H. destruct (H blobs_unknown_filter) as (l & Hl & _).
  vm_compute in Hl. discriminate Hl.
Qed.

Lemma C3_witness :
  ∃ l, draft2_uzy_named.generate_blobs blobs_sample = OK l
     ∧ one_survey_each surveys.BlobSurvey (λ p, blob_bfs blobs_sample p.1 p.2)
         (zip (b_filter1s blobs_sample) (b_filter2s blobs_sample)) l
     ∧ (b_filter1s blobs_sample = b_filter1s (blobs_defaults (b_nside blobs_sample)) →
        b_filter2s blobs_sample = b_filter2s (blobs_defaults (b_nside blobs_sample)) →
        length l = 7%nat).
Proof.
  apply (proj1 (proj2 (C3_one_survey_per_filter draft2_uzy_named.generators
                         (or_introl eq_refl))) blobs_sample).
  split; [discriminate|]. split; [exact I|].
  repeat (apply Forall_cons_2; [split; vm_compute; set_solver|]).
  apply Forall_nil_2.
Defined.

(** ** Index arrays *)

Lemma np_where_spec mask k : k ∈ np_where mask ↔ mask !! k = Some true.
Proof.
  unfold np_where. rewrite list_elem_of_fmap. split.
  - intros ([k' b] & -> & H). apply list_elem_of_filter in H as [Hb H].
    apply elem_of_lookup_imap in H as (j & b' & [= -> ->] & H).
    simpl in *. subst b'. exact H.
  - intros H. exists (k, true). split; [reflexivity|].
    apply list_elem_of_filter. split; [reflexivity|].
    apply elem_of_lookup_imap. exists k, true. split; [reflexivity|exact H].
Qed.

Lemma take_rows_cons {A} (arr : list A) k idx x rest :
  arr !! k = Some x → take_rows arr idx = OK rest →
  take_rows arr (k :: idx) = OK (x :: rest).
Proof.
  intros Hk Hrest. unfold take_rows in *.
  change (mapM ?f (k :: idx)) with (f k ≫= λ y, mapM f idx ≫= λ r, OK (y :: r)).
  simpl. rewrite Hk. simpl. rewrite Hrest. reflexivity.
Qed.

Lemma take_rows_where_from {A} (P : A → bool) (pre arr : list A) :
  take_rows (pre ++ arr)
    (filter (λ p, p.2 = true) (imap (λ k b, (length pre + k, b)%nat) (map P arr))).*1
  = OK (filter (λ x, P x = true) arr).
Proof.
  revert pre. induction arr as [|x arr IH]; intros pre; [reflexivity|].
  simpl map. rewrite imap_cons.
  assert (Hshift : imap ((λ k b, (length pre + k, b)%nat) ∘ S) (map P arr)
                   = imap (λ k b, (length (pre ++ [x]) + k, b)%nat) (map P arr)).
  { apply imap_ext. intros j b _. simpl.
    rewrite length_app. simpl. f_equal. lia. }
  rewrite Hshift. specialize (IH (pre ++ [x])). rewrite <- app_assoc in IH.
  simpl in IH. rewrite filter_cons. rewrite (filter_cons _ x arr). simpl.
  destruct (P x) eqn:HP.
  - rewrite decide_True by reflexivity. rewrite decide_True by reflexivity.
    simpl. apply take_rows_cons; [|exact IH].
    rewrite Nat.add_0_r. apply list_lookup_middle. reflexivity.
  - rewrite decide_False by discriminate. rewrite decide_False by discriminate.
    exact IH.
Qed.

Lemma take_rows_where {A} (P : A → bool) (arr : list A) :
  take_rows arr (np_where (map P arr)) = OK (filter (λ x, P x = true) arr).
Proof. exact (take_rows_where_from P [] arr). Qed.

(** ** ddf_surveys *)

Lemma is_euclid_note_spec r : is_euclid_note r = true ↔ euclid_row r.
Proof.
  unfold is_euclid_note, euclid_row.
  rewrite orb_true_iff, !bool_decide_eq_true. tauto.
Qed.

Lemma not_euclid_note_spec r : not_euclid_note r = true ↔ ¬ euclid_row r.
Proof.
  unfold not_euclid_note, euclid_row.
  rewrite andb_true_iff, !bool_decide_eq_true. tauto.
Qed.

Lemma euclid_obs_spec obs k :
  k ∈ euclid_obs obs ↔ ∃ r, obs !! k = Some r ∧ euclid_row r.
Proof.
  unfold euclid_obs. rewrite np_where_spec, list_lookup_fmap. split.
  - destruct (obs !! k) as [r|]; [|discriminate].
    intros [= H]. exists r. split; [reflexivity|]. apply is_euclid_note_spec, H.
  - intros (r & -> & H). simpl. f_equal. apply is_euclid_note_spec, H.
Qed.

Lemma all_other_spec obs k :
  k ∈ all_other obs ↔ ∃ r, obs !! k = Some r ∧ ¬ euclid_row r.
Proof.
  unfold all_other. rewrite np_where_spec, list_lookup_fmap. split.
  - destruct (obs !! k) as [r|]; [|discriminate].
    intros [= H]. exists r. split; [reflexivity|]. apply not_euclid_note_spec, H.
  - intros (r & -> & H). simpl. f_equal. apply not_euclid_note_spec, H.
Qed.

(** C8.  [ddf_surveys] splits the rows returned by
    [generate_ddf_scheduled_obs] into exactly two scripted surveys: the rows
    whose note is [DD:EDFS_a] or [DD:EDFS_b] are, in order, the script of the
    Euclid survey (the second one, with the Euclid detailers), all other rows
    the script of the first; the two index sets are disjoint and together
    cover every row. *)
Theorem C8_ddf_rows_partitioned obs dets edets :
  ∃ survey1 survey2,
    ddf_surveys (OK obs) dets edets = OK [survey1; survey2]
    ∧ sc_detailers survey1 = dets ∧ sc_detailers survey2 = edets
    ∧ sc_script survey2 = filter euclid_row obs
    ∧ sc_script survey1 = filter (λ r, ¬ euclid_row r) obs
    ∧ (∀ k, k ∈ euclid_obs obs ↔ ∃ r, obs !! k = Some r ∧ euclid_row r)
    ∧ (∀ k, k ∈ all_other obs ↔ ∃ r, obs !! k = Some r ∧ ¬ euclid_row r)
    ∧ (∀ k, ¬ (k ∈ euclid_obs obs ∧ k ∈ all_other obs))
    ∧ (∀ k, (k < length obs)%nat ↔ k ∈ euclid_obs obs ∨ k ∈ all_other obs).
Proof.
  exists {| sc_basis_functions := []; sc_detailers := dets;
            sc_script := filter (λ r, ¬ euclid_row r) obs |},
         {| sc_basis_functions := []; sc_detailers := edets;
            sc_script := filter euclid_row obs |}.
  split.
  { unfold ddf_surveys, all_other, euclid_obs. simpl.
    rewrite !take_rows_where. simpl.
    rewrite (list_filter_iff (λ r, not_euclid_note r = true) (λ r, ¬ euclid_row r) obs)
      by (intros r; apply not_euclid_note_spec).
    rewrite (list_filter_iff (λ r, is_euclid_note r = true) euclid_row obs)
      by (intros r; apply is_euclid_note_spec).
    reflexivity. }
  do 4 (split; [reflexivity|]).
  split; [intros k; apply euclid_obs_spec|].
  split; [intros k; apply all_other_spec|].
  split.
  - intros k [H1 H2]. apply euclid_obs_spec in H1 as (r & Hr & H1).
    apply all_other_spec in H2 as (r' & Hr' & H2). congruence.
  - intros k. split.
    + intros Hk. apply lookup_lt_is_Some_2 in Hk as [r Hr].
      destruct (decide (euclid_row r)).
      * left. apply euclid_obs_spec. eauto.
      * right. apply all_other_spec. eauto.
    + intros [H|H]; [apply euclid_obs_spec in H|apply all_other_spec in H];
        destruct H as (r & Hr & _); eapply lookup_lt_Some, Hr.
Qed.

(** ** add_euclid_overlap *)

Lemma set_rows_lookup {A} (arr : list A) idx v arr' :
  set_rows arr idx v = OK arr' →
  length arr' = length arr
  ∧ ∀ k, arr' !! k = if decide (k ∈ idx) then Some v else arr !! k.
Proof.
  revert arr. induction idx as [|j idx IH]; intros arr; cbn [set_rows].
  - intros [= <-]. split; [reflexivity|]. intros k.
    destruct (decide (k ∈ [])) as [Hk|]; [inversion Hk|reflexivity].
  - destruct (decide (j < length arr)%nat) as [Hj|]; [|discriminate].
    intros H. apply IH in H as [Hlen H]. rewrite length_insert in Hlen.
    split; [exact Hlen|]. intros k. rewrite H.
    destruct (decide (k ∈ idx)) as [Hk|Hk].
    + rewrite decide_True by (right; exact Hk). reflexivity.
    + destruct (decide (k = j)) as [->|Hne].
      * rewrite decide_True by left. apply list_lookup_insert_eq, Hj.
      * rewrite decide_False by (rewrite elem_of_cons; tauto).
        apply list_lookup_insert_ne. congruence.
Qed.

(** The pixels [add_euclid_overlap] selects are those where "inside the
    contour" and "still unlabeled" have the same truth value. *)
Lemma euclid_selection_spec in_poly labels sel k :
  euclid_selection in_poly labels = OK sel →
  sel !! k = Some true ↔
  ∃ p l, in_poly !! k = Some p ∧ labels !! k = Some l ∧ (p = true ↔ l = "").
Proof.
  unfold euclid_selection, elementwise.
  destruct (decide _) as [Hlen|]; [|discriminate]. intros [= <-].
  rewrite lookup_zip_with. rewrite !list_lookup_fmap. split.
  - destruct (in_poly !! k) as [p|]; [|discriminate].
    destruct (labels !! k) as [l|]; [|discriminate]. simpl.
    intros [= H]. apply bool_decide_eq_true in H. exists p, l.
    split; [reflexivity|]. split; [reflexivity|]. rewrite H.
    apply bool_decide_eq_true.
  - intros (p & l & -> & -> & H). simpl. f_equal.
    apply bool_decide_eq_true. destruct p.
    + symmetry. apply bool_decide_eq_true, H. reflexivity.
    + symmetry. apply bool_decide_eq_false. intros Hl.
      apply H in Hl. discriminate.
Qed.

(** What the call does to the label of every pixel. *)
Lemma add_euclid_overlap_labels in_poly ratios label self self' k p l :
  add_euclid_overlap in_poly ratios label self = OK self' →
  in_poly !! k = Some p → pix_labels self !! k = Some l →
  pix_labels self' !! k
  = Some (if decide (p = true ↔ l = "") then U20 label else l).
Proof.
  unfold add_euclid_overlap. intros H Hp Hl.
  apply bind_OK in H as (sel & Hsel & H).
  apply bind_OK in H as (labels & Hlabels & H).
  apply bind_OK in H as (hm & _ & H). injection H as <-. simpl.
  apply set_rows_lookup in Hlabels as [_ Hlabels]. rewrite Hlabels.
  pose proof (euclid_selection_spec _ _ _ k Hsel) as Hk.
  destruct (decide (k ∈ np_where sel)) as [Hin|Hin].
  - apply np_where_spec, Hk in Hin as (p' & l' & Hp' & Hl' & Hiff).
    rewrite Hp in Hp'. rewrite Hl in Hl'. injection Hp' as <-. injection Hl' as <-.
    rewrite decide_True by exact Hiff. reflexivity.
  - rewrite decide_False; [exact Hl|]. intros Hiff. apply Hin.
    apply np_where_spec, Hk. eauto.
Qed.

(** C10 fails on the code.  On [sky_sample], pixel 0 lies outside the Euclid
    contour and already carries the label [lowdust]; [add_euclid_overlap]
    relabels it [euclid_overlap] and overwrites its ratios (column [r] goes
    from 0.5 to 1.0).  Pixel 1 (inside, unlabeled) is labeled, pixel 2
    (inside, labeled) is kept, and pixel 3 (outside, unlabeled) is left
    alone. *)
Theorem C10_labeled_pixel_outside_contour_overwritten :
  add_euclid_overlap in_poly_sample euclid_ratios "euclid_overlap" sky_sample
  = OK {| pix_labels := ["euclid_overlap"; "euclid_overlap"; "virgo"; ""];
          healmaps := {[ "u" := [0.32; 0.32; 0.32; 0]%Q; "g" := [0.4; 0.4; 0.4; 0]%Q;
                         "r" := [1.0; 1.0; 1.0; 0]%Q; "i" := [1.0; 1.0; 1.0; 0]%Q;
                         "z" := [0.9; 0.9; 0.9; 0]%Q; "y" := [0.9; 0.9; 0.9; 0]%Q ]} |}
  ∧ in_poly_sample !! 0%nat = Some false
  ∧ pix_labels sky_sample !! 0%nat = Some "lowdust"
  ∧ healmaps sky_sample !! "r" = Some [0.5; 0; 1.0; 0]%Q.
Proof. repeat split; vm_compute; reflexivity. Qed.

(** ** The script, step by step *)

Ltac step H x Hx := cbv zeta in H; apply bind_OK in H as (x & Hx & H).

Lemma raised_OK {A} (m : result A) a : m = OK a → raised m = None.
Proof. intros ->. reflexivity. Qed.

Lemma run_sched_inv w surveys survey_length nside fileroot verbose extra_info illum_limit r :
  run_sched w surveys survey_length nside fileroot verbose extra_info illum_limit = OK r →
  fault w CoreScheduler_call = None
  ∧ fault w FilterSchedUzy_call = None
  ∧ fault w ModelObservatory_run_call = None
  ∧ fault w sim_runner_call = None
  ∧ call_surveys (call r) = surveys
  ∧ call_extra_info (call r) = extra_info
  ∧ call_survey_length (call r) = survey_length
  ∧ call_filename (call r)
    = fileroot +:+ (fmt_i (np_round (numQ survey_length / 365.25)) +:+ "yrs.db").
Proof.
  unfold run_sched. intros H.
  step H sch Hsch. step H fs Hfs. step H obs Hobs. step H out Hout.
  injection H as <-. simpl.
  repeat split; eauto using raised_OK.
Qed.

(** What a finished run tells about the steps before it. *)
Lemma script_body_inv G rm a w r :
  script_body G rm a w = OK r →
  ∃ extra_info fileroot pattern maps na ta ddfs long_gaps blobs twi_blobs neo greedy,
    provenance w = OK extra_info
    ∧ match args.dbroot a with
      | Some dbroot => fileroot = dbroot +:+ "_"
      | None => ∃ argv0 rest, sys_argv w = argv0 :: rest
                ∧ fileroot = str_remove ".py" (os_path_basename argv0) +:+ "_"
      end
    ∧ pattern_dict !! args.neo_night_pattern a = Some pattern
    ∧ fault w sky_generator_call = None
    ∧ rm w = OK maps
    ∧ is_Some (healmaps maps !! "r")
    ∧ fault w ModelObservatory_call = None
    ∧ fault w return_conditions_call = None
    ∧ fault w make_rolling_footprints_call = None
    ∧ fault w gen_long_gaps_survey_call = None
    ∧ fault w generate_ddf_scheduled_obs_call = None
    ∧ generate_twilight_neo_of G na = OK neo
    ∧ n_night_pattern na = bools pattern
    ∧ generate_twi_blobs_of G ta = OK twi_blobs
    ∧ t_night_pattern ta = bools (map negb pattern)
    ∧ fault w CoreScheduler_call = None
    ∧ fault w FilterSchedUzy_call = None
    ∧ fault w ModelObservatory_run_call = None
    ∧ fault w sim_runner_call = None
    ∧ call_surveys (call r)
      = [Scripted ddfs; Library long_gaps; Generated blobs; Generated twi_blobs;
         Generated neo; Generated greedy]
    ∧ call_extra_info (call r) = Some extra_info
    ∧ call_filename (call r)
      = os_path_join (args.outDir a) [fileroot +:+ "v2.99_"]
        +:+ (fmt_i (np_round (numQ (args.survey_length a) / 365.25)) +:+ "yrs.db").
Proof.
  unfold script_body. intros H.
  step H extra_info Hprov. step H fileroot Hroot. step H pattern Hpat.
  step H sky Hsky. step H maps Hmaps. step H r1 Hr1. step H wfd Hwfd.
  step H r2 Hr2. step H fmask Hmask. step H obsy Hobsy. step H cond Hcond.
  step H footprints Hfp. step H long_gaps Hlg. step H ddfs Hddfs.
  step H greedy Hgreedy. step H neo Hneo. step H blobs Hblobs.
  step H twi_blobs Htwi.
  apply run_sched_inv in H as (Hcs & Hfs & Hmo & Hsr & Hsurveys & Hei & _ & Hfile).
  unfold ddf_surveys in Hddfs. step Hddfs obs Hobs.
  eexists extra_info, fileroot, pattern, maps, _, _, ddfs, long_gaps, blobs,
    twi_blobs, neo, greedy.
  split; [exact Hprov|]. split.
  { destruct (args.dbroot a) as [dbroot|].
    - injection Hroot as <-. reflexivity.
    - step Hroot argv0 Hargv. injection Hroot as <-.
      unfold first in Hargv. destruct (sys_argv w) as [|x rest]; [discriminate|].
      injection Hargv as ->. exists argv0, rest. split; reflexivity. }
  split.
  { unfold getitemZ in Hpat. destruct (pattern_dict !! _); [|discriminate].
    injection Hpat as ->. reflexivity. }
  split; [exact (raised_OK _ _ Hsky)|]. split; [exact Hmaps|]. split.
  { unfold field in Hr1. destruct (healmaps maps !! "r"); [eauto|discriminate]. }
  split; [exact (raised_OK _ _ Hobsy)|]. split; [exact (raised_OK _ _ Hcond)|].
  split; [exact (raised_OK _ _ Hfp)|]. split; [exact (raised_OK _ _ Hlg)|].
  split; [exact (raised_OK _ _ Hobs)|].
  split; [exact Hneo|]. split; [reflexivity|].
  split; [exact Htwi|]. split; [reflexivity|].
  do 4 (split; [assumption|]).
  split; [exact Hsurveys|]. split; [exact Hei|]. exact Hfile.
Qed.

(** ** Provenance *)

Lemma git_hash_failed w extra_info :
  check_output w git_command = Raise CalledProcessError →
  git_hash w extra_info = OK (<["git hash" := VStr "Not in git repo"]> extra_info).
Proof. unfold git_hash. intros ->. reflexivity. Qed.

Lemma git_hash_succeeded w extra_info out :
  check_output w git_command = OK out →
  git_hash w extra_info = OK (<["git hash" := VBytes out]> extra_info).
Proof. unfold git_hash. intros ->. reflexivity. Qed.

Lemma try_except_OK {A} (body : result A) cls handler a :
  try_except body cls handler = OK a →
  body = OK a ∨ (body = Raise cls ∧ handler = OK a).
Proof.
  unfold try_except. destruct body as [x|e]; [left; assumption|].
  destruct (decide (e = cls)) as [->|]; [right; split; trivial|discriminate].
Qed.

Lemma rubin_sim_git_hash_keeps w extra_info extra_info' key :
  rubin_sim_git_hash w extra_info = OK extra_info' →
  key ≠ "rubin_sim git hash" → extra_info' !! key = extra_info !! key.
Proof.
  unfold rubin_sim_git_hash. intros H Hkey.
  apply try_except_OK in H as [H | [_ H']];
    [|injection H' as <-; reflexivity].
  step H rs_path Hp. step H out Hout. injection H as <-.
  apply lookup_insert_ne. congruence.
Qed.

Lemma provenance_git_hash w extra_info :
  provenance w = OK extra_info →
  (check_output w git_command = Raise CalledProcessError →
     extra_info !! "git hash" = Some (VStr "Not in git repo"))
  ∧ (∀ out, check_output w git_command = OK out →
     extra_info !! "git hash" = Some (VBytes out)).
Proof.
  unfold provenance. intros H. step H ei Hgit.
  rewrite (rubin_sim_git_hash_keeps _ _ _ "git hash" H) by discriminate.
  rewrite lookup_insert_ne by discriminate. split.
  - intros Hfail. rewrite (git_hash_failed _ _ Hfail) in Hgit.
    injection Hgit as <-. apply lookup_insert_eq.
  - intros out Hout. rewrite (git_hash_succeeded _ _ _ Hout) in Hgit.
    injection Hgit as <-. apply lookup_insert_eq.
Qed.

(** C5.  When [git rev-parse HEAD] fails with [CalledProcessError], the
    [try] statement ends normally with [extra_info['git hash']] set to the
    placeholder ['Not in git repo'], [main] goes on with the statements that
    follow, and the placeholder is the entry a finished run hands to the
    driver; when the command succeeds, its output is stored instead. *)
Theorem C5_git_hash_defaults_to_placeholder a w :
  (∀ extra_info,
     check_output w git_command = Raise CalledProcessError →
     git_hash w extra_info = OK (<["git hash" := VStr "Not in git repo"]> extra_info))
  ∧ (∀ extra_info out,
     check_output w git_command = OK out →
     git_hash w extra_info = OK (<["git hash" := VBytes out]> extra_info))
  ∧ (check_output w git_command = Raise CalledProcessError →
     provenance w
     = rubin_sim_git_hash w
         (<["file executed" := VStr (realpath_file w)]>
            (<["git hash" := VStr "Not in git repo"]>
               (<["exec command" := VStr (exec_command_of (sys_argv w))]> ∅))))
  ∧ (∀ r, draft2_uzy_named.main a w = OK r →
     ∃ extra_info,
       call_extra_info (call r) = Some extra_info
       ∧ (check_output w git_command = Raise CalledProcessError →
          extra_info !! "git hash" = Some (VStr "Not in git repo"))
       ∧ (∀ out, check_output w git_command = OK out →
          extra_info !! "git hash" = Some (VBytes out))).
Proof.
  split; [intros ei; apply git_hash_failed|].
  split; [intros ei out; apply git_hash_succeeded|].
  split; [intros Hfail; unfold provenance;
          rewrite (git_hash_failed _ _ Hfail); reflexivity|].
  intros r H. unfold draft2_uzy_named.main in H.
  apply script_body_inv in H
    as (ei & fileroot & pattern & maps & na & ta & ddfs & long_gaps & blobs
        & twi_blobs & neo & greedy & Hprov & H).
  exists ei. split; [apply H|]. exact (provenance_git_hash w ei Hprov).
Qed.

Lemma C5_witness :
  ∃ r extra_info,
    draft2_uzy_named.main args_sample
      (world_sample (Raise CalledProcessError) (OK "4f2a")) = OK r
    ∧ call_extra_info (call r) = Some extra_info
    ∧ extra_info !! "git hash" = Some (VStr "Not in git repo").
Proof.
  destruct (draft2_uzy_named.main args_sample
              (world_sample (Raise CalledProcessError) (OK "4f2a"))) as [r|e] eqn:E;
    [|vm_compute in E; discriminate E].
  destruct (proj2 (proj2 (proj2 (C5_git_hash_defaults_to_placeholder args_sample
              (world_sample (Raise CalledProcessError) (OK "4f2a"))))) r E)
    as (ei & Hei & Hfail & _).
  exists r, ei. split; [reflexivity|]. split; [exact Hei|].
  apply Hfail. reflexivity.
Defined.

(** ** The name of the results file *)

Lemma append_assoc (a b c : string) : (a +:+ b) +:+ c = a +:+ (b +:+ c).
Proof.
  induction a as [|x a IH]; [reflexivity|].
  change (String x ((a +:+ b) +:+ c) = String x (a +:+ (b +:+ c))).
  f_equal. exact IH.
Qed.

Lemma os_path_join_suffix a b : ∃ prefix, os_path_join a [b] = prefix +:+ b.
Proof.
  unfold os_path_join, path_join2. simpl.
  destruct (String.prefix "/" b).
  - exists "". reflexivity.
  - destruct (bool_decide (a = "") || ends_with_sep a).
    + exists a. reflexivity.
    + exists (a +:+ "/"). symmetry. exact (append_assoc a "/" b).
Qed.

(** C6.  [run_sched] hands [sim_runner] the file name
    [fileroot + '%iyrs.db' % round(survey_length/365.25)], and the [fileroot]
    that [main] passes ends with the version tag [v2.99_]: the name of the
    results file is some prefix, then [v2.99_], the survey length in whole
    years, and [yrs.db]. *)
Theorem C6_results_file_name :
  (∀ w surveys survey_length nside fileroot verbose extra_info illum_limit r,
     run_sched w surveys survey_length nside fileroot verbose extra_info illum_limit
     = OK r →
     call_filename (call r)
     = fileroot +:+ (fmt_i (np_round (numQ survey_length / 365.25)) +:+ "yrs.db"))
  ∧ (∀ a w r,
     draft2_uzy_named.main a w = OK r →
     ∃ prefix,
       call_filename (call r)
       = prefix +:+ ("v2.99_"
           +:+ (fmt_i (np_round (numQ (args.survey_length a) / 365.25)) +:+ "yrs.db"))).
Proof.
  split.
  - intros w surveys sl nside fileroot verbose ei illum r H.
    apply run_sched_inv in H. apply H.
  - intros a w r H. unfold draft2_uzy_named.main in H.
    apply script_body_inv in H
      as (ei & fileroot & pattern & maps & na & ta & ddfs & long_gaps & blobs
          & twi_blobs & neo & greedy & _ & H).
    destruct H as (_ & _ & _ & _ & _ & _ & _ & _ & _ & _ & _ & _ & _ & _
                   & _ & _ & _ & _ & _ & _ & Hfile).
    destruct (os_path_join_suffix (args.outDir a) (fileroot +:+ "v2.99_"))
      as [prefix Hp].
    exists (prefix +:+ fileroot). rewrite Hfile, Hp, !append_assoc. reflexivity.
Qed.

Lemma C6_witness :
  ∃ r, draft2_uzy_named.main args_sample (world_sample (OK "4f2a") (OK "9c1e")) = OK r
     ∧ call_filename (call r) = "draft2_uzy_named_v2.99_10yrs.db"
     ∧ ∃ prefix,
         call_filename (call r)
         = prefix +:+ ("v2.99_"
             +:+ (fmt_i (np_round (numQ (args.survey_length args_sample) / 365.25))
                  +:+ "yrs.db")).
Proof.
  destruct (draft2_uzy_named.main args_sample (world_sample (OK "4f2a") (OK "9c1e")))
    as [r|e] eqn:E; [|vm_compute in E; discriminate E].
  exists r. split; [reflexivity|]. split.
  - vm_compute in E. injection E as <-. reflexivity.
  - exact (proj2 C6_results_file_name args_sample
             (world_sample (OK "4f2a") (OK "9c1e")) r E).
Defined.

(** ** Night patterns *)

Lemma neo_bfs_night_modulo a constant_fp filtername :
  of_class bf.NightModuloBasisFunction (neo_bfs a constant_fp filtername)
  = [(bf.new bf.NightModuloBasisFunction [("pattern", n_night_pattern a)], Int 0)].
Proof. reflexivity. Qed.

Lemma twi_blob_bfs_night_modulo a filtername filtername2 bfs :
  twi_blob_bfs a filtername filtername2 = OK bfs →
  of_class bf.NightModuloBasisFunction bfs
  = [(bf.new bf.NightModuloBasisFunction [("pattern", t_night_pattern a)], Int 0)].
Proof.
  unfold twi_blob_bfs, get_footprint.
  destruct filtername2 as [filtername2|]; simpl; crack_bfs;
    try discriminate; intros [= <-]; reflexivity.
Qed.

Lemma pattern_dict_nonempty k pattern :
  pattern_dict !! k = Some pattern → pattern ≠ [].
Proof.
  assert (H : map_Forall (λ _ p, p ≠ []) pattern_dict).
  { unfold pattern_dict. repeat (apply map_Forall_insert_2; [discriminate|]).
    apply map_Forall_empty. }
  exact (map_Forall_lookup_1 _ _ _ _ H).
Qed.

Lemma night_modulo_complement pattern night :
  pattern ≠ [] →
  ∃ b, night_modulo_feasible pattern night = Some b
       ∧ night_modulo_feasible (map negb pattern) night = Some (negb b).
Proof.
  intros Hne. unfold night_modulo_feasible.
  rewrite decide_False by exact Hne.
  rewrite decide_False by (destruct pattern; [contradiction|discriminate]).
  rewrite length_map.
  assert (Hlen : (0 < length pattern)%nat) by (destruct pattern; simpl; [contradiction|lia]).
  assert (Hk : (Z.to_nat (night `mod` Z.of_nat (length pattern)) < length pattern)%nat).
  { pose proof (Z.mod_pos_bound night (Z.of_nat (length pattern))). lia. }
  apply lookup_lt_is_Some_2 in Hk as [b Hb]. exists b.
  split; [exact Hb|]. rewrite list_lookup_fmap, Hb. reflexivity.
Qed.

(** C9.  In a finished run of either script, the [NightModulo] pattern of
    every twilight-NEO survey is the [pattern_dict] entry selected by
    [neo_night_pattern], that of every twilight-pair-blob survey is its
    element-wise negation, and on every night exactly one of the two
    patterns is on. *)
Theorem C9_twilight_patterns_are_complementary a w r :
  draft2_uzy_named.main a w = OK r ∨ euclid_smudge.script w = OK r ∧ parse_args w = OK a →
  ∃ pattern ddfs long_gaps blobs twi_blobs neo greedy,
    pattern_dict !! args.neo_night_pattern a = Some pattern
    ∧ call_surveys (call r)
      = [Scripted ddfs; Library long_gaps; Generated blobs; Generated twi_blobs;
         Generated neo; Generated greedy]
    ∧ Forall (λ s, entries_of bf.NightModuloBasisFunction s
                   = [night_modulo_entry pattern]) neo
    ∧ Forall (λ s, entries_of bf.NightModuloBasisFunction s
                   = [night_modulo_entry (map negb pattern)]) twi_blobs
    ∧ ∀ night, ∃ b,
        night_modulo_feasible pattern night = Some b
        ∧ night_modulo_feasible (map negb pattern) night = Some (negb b).
Proof.
  intros H.
  assert (H' : ∃ G rm, is_script G ∧ script_body G rm a w = OK r).
  { destruct H as [H | [H Ha]].
    - exists draft2_uzy_named.generators, library_return_maps.
      split; [left; reflexivity|exact H].
    - exists euclid_smudge.generators, euclid_smudge.return_maps.
      split; [right; reflexivity|].
      unfold euclid_smudge.script in H. rewrite Ha in H. exact H. }
  clear H. destruct H' as (G & rm & HG & H).
  apply script_body_inv in H
    as (ei & fileroot & pattern & maps & na & ta & ddfs & long_gaps & blobs
        & twi_blobs & neo & greedy & _ & _ & Hpat & _ & _ & _ & _ & _ & _ & _ & _
        & Hneo & Hnp & Htwi & Htp & _ & _ & _ & _ & Hsurveys & _).
  exists pattern, ddfs, long_gaps, blobs, twi_blobs, neo, greedy.
  split; [exact Hpat|]. split; [exact Hsurveys|]. split; [|split].
  - eapply Forall2_Forall_r; [exact (neo_survey G na neo HG Hneo)|].
    apply Forall_true. intros x s (_ & Hu).
    rewrite (unpacked_entries _ _ _ Hu), neo_bfs_night_modulo, Hnp. reflexivity.
  - eapply Forall2_Forall_r; [exact (twi_blob_survey G ta twi_blobs HG Htwi)|].
    apply Forall_true. intros x s (_ & bfs & Hbfs & Hu).
    rewrite (unpacked_entries _ _ _ Hu), (twi_blob_bfs_night_modulo _ _ _ _ Hbfs), Htp.
    reflexivity.
  - intros night. apply night_modulo_complement.
    exact (pattern_dict_nonempty _ _ Hpat).
Qed.

Lemma C9_witness :
  ∃ r twi_blobs neo,
    draft2_uzy_named.main args_sample (world_sample (OK "4f2a") (OK "9c1e")) = OK r
    ∧ call_surveys (call r) !! 3%nat = Some (Generated twi_blobs)
    ∧ call_surveys (call r) !! 4%nat = Some (Generated neo)
    ∧ Forall (λ s, entries_of bf.NightModuloBasisFunction s
                   = [night_modulo_entry [true; false; false; false]]) neo
    ∧ Forall (λ s, entries_of bf.NightModuloBasisFunction s
                   = [night_modulo_entry [false; true; true; true]]) twi_blobs.
Proof.
  destruct (draft2_uzy_named.main args_sample (world_sample (OK "4f2a") (OK "9c1e")))
    as [r|e] eqn:E; [|vm_compute in E; discriminate E].
  destruct (C9_twilight_patterns_are_complementary args_sample
              (world_sample (OK "4f2a") (OK "9c1e")) r (or_introl E))
    as (pattern & ddfs & lg & blobs & twi_blobs & neo & greedy
        & Hpat & Hs & Hneo & Htwi & _).
  vm_compute in Hpat. injection Hpat as <-.
  exists r, twi_blobs, neo. split; [reflexivity|].
  rewrite Hs. repeat split; assumption.
Defined.

(** ** Which failures a script survives *)

Lemma provenance_faults w extra_info e :
  provenance w = OK extra_info →
  (fault w git_rev_parse_call = Some e → e = CalledProcessError)
  ∧ (fault w cat_hash_file_call = Some e → e = CalledProcessError).
Proof.
  unfold provenance. intros H. step H ei Hgit. split.
  - simpl. intros He. unfold git_hash in Hgit.
    destruct (check_output w git_command) as [out|e']; [discriminate|].
    injection He as ->. simpl in Hgit.
    destruct (decide (e = CalledProcessError)); [assumption|discriminate].
  - simpl. intros He. unfold rubin_sim_git_hash in H.
    destruct (rubin_sim_path w) as [|rs_path rest]; [discriminate|].
    simpl in H.
    destruct (check_output w ["cat"; hash_file rs_path]) as [out|e']; [discriminate|].
    injection He as ->. simpl in H.
    destruct (decide (e = CalledProcessError)); [assumption|discriminate].
Qed.

Lemma euclid_return_maps_inv w maps :
  euclid_smudge.return_maps w = OK maps →
  fault w add_magellanic_clouds_call = None
  ∧ fault w add_lowdust_wfd_call = None
  ∧ fault w add_virgo_cluster_call = None
  ∧ fault w add_bulgy_call = None
  ∧ fault w add_nes_call = None
  ∧ fault w add_dusty_plane_call = None
  ∧ fault w euclid_in_poly_call = None
  ∧ fault w add_scp_call = None.
Proof.
  unfold euclid_smudge.return_maps. intros H.
  step H f1 H1. step H f2 H2. step H f3 H3. step H f4 H4. step H f5 H5.
  step H f6 H6. step H in_poly H7. step H self H8. step H f9 H9.
  simpl. rewrite H1, H2, H3, H4, H5, H6, H7, H9. repeat split.
Qed.

Ltac settle_site :=
  match goal with
  | Hn : fault ?w ?s = None, He : fault ?w ?s = Some _ |- _ =>
      rewrite Hn in He; discriminate He
  | |- is_hash_retrieval git_rev_parse_call ∧ _ => split; [left; reflexivity|auto]
  | |- is_hash_retrieval cat_hash_file_call ∧ _ => split; [right; reflexivity|auto]
  end.

(** A finished run had no failing call, but possibly a hash retrieval that
    failed with [CalledProcessError]. *)
Lemma finished_run_faults script sites w s e :
  is_script_with_sites script sites → is_OK (script w) →
  s ∈ sites → fault w s = Some e →
  is_hash_retrieval s ∧ e = CalledProcessError.
Proof.
  intros Hscript [r Hr] Hs He.
  assert (Hbody : ∃ G rm a, parse_args w = OK a ∧ script_body G rm a w = OK r
            ∧ (rm = library_return_maps ∧ sites = draft2_sites
               ∨ rm = euclid_smudge.return_maps ∧ sites = euclid_sites)).
  { destruct Hscript as [[-> ->] | [-> ->]].
    - unfold draft2_uzy_named.script in Hr. step Hr a Ha.
      exists draft2_uzy_named.generators, library_return_maps, a.
      split; [exact Ha|]. split; [exact Hr|]. left. split; reflexivity.
    - unfold euclid_smudge.script in Hr. step Hr a Ha.
      exists euclid_smudge.generators, euclid_smudge.return_maps, a.
      split; [exact Ha|]. split; [exact Hr|]. right. split; reflexivity. }
  destruct Hbody as (G & rm & a & Ha & Hbody & Hrm).
  apply script_body_inv in Hbody
    as (ei & fileroot & pattern & maps & na & ta & ddfs & long_gaps & blobs
        & twi_blobs & neo & greedy & Hprov & _ & _ & Hsky & Hmaps & _ & Hmo & Hcond
        & Hfp & Hlg & Hddf & _ & _ & _ & _ & Hcs & Hfs & Hmor & Hsr & _).
  destruct (provenance_faults w ei e Hprov) as [Hgit Hcat].
  assert (Hparse : fault w parse_args_call = None) by exact (raised_OK _ _ Ha).
  clear Ha Hprov. destruct Hrm as [[-> ->] | [-> ->]].
  - assert (Hlib : fault w library_return_maps_call = None)
      by exact (raised_OK _ _ Hmaps).
    clear Hmaps. unfold draft2_sites in Hs.
    repeat (apply elem_of_cons in Hs as [-> | Hs]; [settle_site|]).
    inversion Hs.
  - destruct (euclid_return_maps_inv w maps Hmaps)
      as (H1 & H2 & H3 & H4 & H5 & H6 & H7 & H8).
    clear Hmaps. unfold euclid_sites in Hs.
    repeat (apply elem_of_cons in Hs as [-> | Hs]; [settle_site|]).
    inversion Hs.
Qed.

Ltac quiet_elsewhere :=
  let s' := fresh "s" in
  let Hs := fresh "Hs" in
  let Hne := fresh "Hne" in
  intros s' Hs Hne;
  repeat (apply elem_of_cons in Hs as [-> | Hs];
          [first [reflexivity | contradiction]|]);
  inversion Hs.

Lemma survives_git_failure script sites :
  is_script_with_sites script sites →
  survives script sites git_rev_parse_call CalledProcessError.
Proof.
  intros [[-> ->] | [-> ->]];
    exists (world_sample (Raise CalledProcessError) (OK "9c1e"));
    (split; [reflexivity|]); (split; [quiet_elsewhere|]);
    eexists; vm_compute; reflexivity.
Qed.

Lemma survives_cat_failure script sites :
  is_script_with_sites script sites →
  survives script sites cat_hash_file_call CalledProcessError.
Proof.
  intros [[-> ->] | [-> ->]];
    exists (world_sample (OK "4f2a") (Raise CalledProcessError));
    (split; [reflexivity|]); (split; [quiet_elsewhere|]);
    eexists; vm_compute; reflexivity.
Qed.

(** C4, as the code has it.  Each script has two error boundaries, both
    around the retrieval of a version-control hash and both for
    [CalledProcessError] only: of all single failures of the calls a script
    makes, it survives exactly a [CalledProcessError] of [git rev-parse HEAD]
    and one of [cat] on the library's hash file.  Every other exception of
    every call ends the run, and so do a footprint array without its [r]
    column and a night-pattern key outside the dictionary. *)
Theorem C4_only_hash_retrieval_is_caught script sites :
  is_script_with_sites script sites →
  (∀ s e, s ∈ sites →
     survives script sites s e ↔ is_hash_retrieval s ∧ e = CalledProcessError)
  ∧ (∀ w s e, s ∈ sites → fault w s = Some e →
     ¬ (is_hash_retrieval s ∧ e = CalledProcessError) → ¬ is_OK (script w))
  ∧ (∀ G rm a w maps, rm w = OK maps → healmaps maps !! "r" = None →
     ¬ is_OK (script_body G rm a w))
  ∧ (∀ G rm a w, pattern_dict !! args.neo_night_pattern a = None →
     ¬ is_OK (script_body G rm a w)).
Proof.
  intros Hscript. split; [|split; [|split]].
  - intros s e Hs. split.
    + intros (w & He & _ & Hok).
      exact (finished_run_faults script sites w s e Hscript Hok Hs He).
    + intros [[-> | ->] ->].
      * exact (survives_git_failure script sites Hscript).
      * exact (survives_cat_failure script sites Hscript).
  - intros w s e Hs He Hnot Hok. apply Hnot.
    exact (finished_run_faults script sites w s e Hscript Hok Hs He).
  - intros G rm a w maps Hmaps Hr [r H].
    apply script_body_inv in H
      as (ei & fileroot & pattern & maps' & na & ta & ddfs & long_gaps & blobs
          & twi_blobs & neo & greedy & _ & _ & _ & _ & Hmaps' & [col Hcol] & _).
    rewrite Hmaps in Hmaps'. injection Hmaps' as <-. congruence.
  - intros G rm a w Hpat [r H].
    apply script_body_inv in H
      as (ei & fileroot & pattern & maps' & na & ta & ddfs & long_gaps & blobs
          & twi_blobs & neo & greedy & _ & _ & Hpat' & _).
    congruence.
Qed.

Lemma C4_witness :
  survives draft2_uzy_named.script draft2_sites git_rev_parse_call CalledProcessError
  ∧ survives euclid_smudge.script euclid_sites cat_hash_file_call CalledProcessError.
Proof.
  split.
  - apply (proj1 (C4_only_hash_retrieval_is_caught draft2_uzy_named.script draft2_sites
                    (or_introl (conj eq_refl eq_refl)))).
    + unfold draft2_sites. set_solver.
    + split; [left; reflexivity|reflexivity].
  - apply (proj1 (C4_only_hash_retrieval_is_caught euclid_smudge.script euclid_sites
                    (or_intror (conj eq_refl eq_refl)))).
    + unfold euclid_sites. set_solver.
    + split; [right; reflexivity|reflexivity].
Defined.

(** C4 as stated fails: the scripts do not have exactly one error boundary.
    [draft2_uzy_named.py] survives a failure of [git rev-parse HEAD] and also
    a failure of [cat] on the hash file, two different calls, each inside a
    [try] statement of its own. *)
Lemma C4_counterexample :
  ¬ ∃ boundary, ∀ s e,
      survives draft2_uzy_named.script draft2_sites s e → s = boundary.
Proof.
  intros [boundary H].
  assert (Hs : is_script_with_sites draft2_uzy_named.script draft2_sites)
    by (left; split; reflexivity).
  pose proof (H _ _ (survives_git_failure _ _ Hs)) as H1.
  pose proof (H _ _ (survives_cat_failure _ _ Hs)) as H2.
  congruence.
Qed.

(** ** Equal arguments give the same configuration *)

Global Instance num_eqv_equivalence : Equivalence num_eqv.
Proof.
  unfold num_eqv. split.
  - intros x. reflexivity.
  - intros x y H. symmetry. exact H.
  - intros x y z H1 H2. rewrite H1. exact H2.
Qed.

Fixpoint pyval_eqv_refl (v : pyval) : pyval_eqv v v.
Proof.
  destruct v as [| | | | | |l| | | |entries]; try (constructor; reflexivity || apply pyval_eqv_refl).
  - constructor. induction l as [|x l IH]; constructor; [apply pyval_eqv_refl|exact IH].
  - constructor. induction entries as [|[k x] l IH]; constructor;
      [split; [reflexivity|apply pyval_eqv_refl]|exact IH].
Qed.

Lemma truediv_eqv a a' b b' :
  num_eqv a a' → num_eqv b b' → num_eqv (truediv a b) (truediv a' b').
Proof. unfold num_eqv, truediv. simpl. intros -> ->. reflexivity. Qed.

Lemma numQ_mul a b : (numQ (num_mul a b) == numQ a * numQ b)%Q.
Proof.
  destruct a, b; simpl; first [reflexivity | apply inject_Z_mult].
Qed.

Lemma num_mul_eqv a a' b b' :
  num_eqv a a' → num_eqv b b' → num_eqv (num_mul a b) (num_mul a' b').
Proof.
  unfold num_eqv. intros Ha Hb. rewrite !numQ_mul, Ha, Hb. reflexivity.
Qed.

Lemma np_array_eqv l l' :
  Forall2 num_eqv l l' → Forall2 num_eqv (np_array l) (np_array l').
Proof.
  intros H. unfold np_array.
  assert (Hf : Forall2 num_eqv l (map (λ n, Float (numQ n)) l')).
  { clear - H. induction H; simpl; constructor; assumption. }
  assert (Hf' : Forall2 num_eqv (map (λ n, Float (numQ n)) l) l').
  { clear - H. induction H; simpl; constructor; assumption. }
  assert (Hff : Forall2 num_eqv (map (λ n, Float (numQ n)) l)
                                (map (λ n, Float (numQ n)) l')).
  { clear - H. induction H; simpl; constructor; assumption. }
  destruct (forallb is_int l), (forallb is_int l'); assumption.
Qed.

Lemma num_min_eqv a a' b b' :
  num_eqv a a' → num_eqv b b' → num_eqv (num_min a b) (num_min a' b').
Proof.
  unfold num_eqv, num_min. intros Ha Hb.
  assert (E : Qle_bool (numQ a) (numQ b) = Qle_bool (numQ a') (numQ b'))
    by (rewrite Ha, Hb; reflexivity).
  rewrite E. destruct (Qle_bool (numQ a') (numQ b')); assumption.
Qed.

Lemma num_max_eqv a a' b b' :
  num_eqv a a' → num_eqv b b' → num_eqv (num_max a b) (num_max a' b').
Proof.
  unfold num_eqv, num_max. intros Ha Hb.
  assert (E : Qle_bool (numQ a) (numQ b) = Qle_bool (numQ a') (numQ b'))
    by (rewrite Ha, Hb; reflexivity).
  rewrite E. destruct (Qle_bool (numQ a') (numQ b')); assumption.
Qed.

Lemma fold_left_eqv (op : num → num → num) l l' x x' :
  (∀ a a' b b', num_eqv a a' → num_eqv b b' → num_eqv (op a b) (op a' b')) →
  Forall2 num_eqv l l' → num_eqv x x' →
  num_eqv (fold_left op l x) (fold_left op l' x').
Proof.
  intros Hop H. revert x x'. induction H; intros u u' Hu; simpl; [exact Hu|].
  apply IHForall2, Hop; assumption.
Qed.

Lemma np_min_eqv l l' :
  Forall2 num_eqv l l' → result_eqv num_eqv (np_min l) (np_min l').
Proof.
  intros H. apply np_array_eqv in H. unfold np_min.
  destruct H; simpl; [reflexivity|].
  apply fold_left_eqv; auto using num_min_eqv.
Qed.

Lemma np_max_eqv l l' :
  Forall2 num_eqv l l' → result_eqv num_eqv (np_max l) (np_max l').
Proof.
  intros H. apply np_array_eqv in H. unfold np_max.
  destruct H; simpl; [reflexivity|].
  apply fold_left_eqv; auto using num_max_eqv.
Qed.

Lemma bind_eqv {A B} (R : relation A) (S : relation B) m m' (k k' : A → result B) :
  result_eqv R m m' →
  (∀ x x', R x x' → result_eqv S (k x) (k' x')) →
  result_eqv S (m ≫= k) (m' ≫= k').
Proof.
  destruct m, m'; simpl; intros H Hk; try contradiction; auto.
Qed.

Lemma for_each_eqv {A B} (R : relation B) (body body' : A → result B) l :
  (∀ x, result_eqv R (body x) (body' x)) →
  result_eqv (Forall2 R) (for_each body l) (for_each body' l).
Proof.
  intros H. unfold for_each. induction l as [|x l IH]; simpl; [constructor|].
  eapply bind_eqv; [apply H|]. intros y y' Hy.
  eapply bind_eqv; [exact IH|]. intros k k' Hk. simpl.
  constructor; assumption.
Qed.

Lemma get_footprint_eqv fp fp' filtername :
  pyval_eqv fp fp' →
  result_eqv pyval_eqv (get_footprint fp filtername) (get_footprint fp' filtername).
Proof.
  intros H. destruct H; simpl; try reflexivity; constructor; constructor; assumption.
Qed.

Ltac break H :=
  hnf in H;
  repeat match type of H with
         | _ ∧ _ => let H' := fresh "E" in destruct H as [H' H]
         end.

Ltac same :=
  repeat first
    [ assumption
    | reflexivity
    | apply Forall2_app
    | apply List.Forall2_cons
    | apply List.Forall2_nil
    | apply eqv_Num
    | apply eqv_List
    | apply eqv_GetFootprint
    | apply eqv_EclipticTarget
    | apply eqv_ConstantFootprint
    | apply eqv_None | apply eqv_Bool | apply eqv_NaN | apply eqv_Str
    | apply eqv_Bytes | apply eqv_Obj
    | apply truediv_eqv
    | apply num_mul_eqv
    | split
    | progress simpl ].

Lemma weighted_fst l l' :
  Forall2 weighted_eqv l l' → Forall2 bf_eqv (map fst l) (map fst l').
Proof. induction 1 as [|x y l l' [H _]]; simpl; constructor; assumption. Qed.

Lemma weighted_snd l l' :
  Forall2 weighted_eqv l l' → Forall2 num_eqv (map snd l) (map snd l').
Proof. induction 1 as [|x y l l' [_ H]]; simpl; constructor; assumption. Qed.

Lemma camera_rot_eqv limits limits' (k k' : num → num → result (list detailers.obj)) :
  Forall2 num_eqv limits limits' →
  (∀ lo lo' hi hi', num_eqv lo lo' → num_eqv hi hi' →
     result_eqv (Forall2 detailer_eqv) (k lo hi) (k' lo' hi')) →
  result_eqv (Forall2 detailer_eqv)
    (np_min limits ≫= λ lo, np_max limits ≫= λ hi, k lo hi)
    (np_min limits' ≫= λ lo, np_max limits' ≫= λ hi, k' lo hi).
Proof.
  intros H Hk. eapply bind_eqv; [exact (np_min_eqv _ _ H)|]. intros lo lo' Hlo.
  eapply bind_eqv; [exact (np_max_eqv _ _ H)|]. intros hi hi' Hhi. auto.
Qed.

Lemma greedy_detailer_list_eqv a a' :
  greedy_args_eqv a a' →
  result_eqv (Forall2 detailer_eqv) (greedy_detailer_list a) (greedy_detailer_list a').
Proof.
  intros H. break H. unfold greedy_detailer_list.
  apply camera_rot_eqv; [assumption|]. intros lo lo' hi hi' Hlo Hhi. same.
Qed.

Lemma greedy_bfs_eqv a a' filtername :
  greedy_args_eqv a a' →
  Forall2 weighted_eqv (greedy_bfs a filtername) (greedy_bfs a' filtername).
Proof. intros H. break H. unfold greedy_bfs. same. Qed.

Lemma gen_GreedySurveys_eqv G a a' :
  is_script G → greedy_args_eqv a a' →
  result_eqv (Forall2 survey_eqv) (gen_GreedySurveys_of G a) (gen_GreedySurveys_of G a').
Proof.
  intros HG H.
  pose proof (greedy_detailer_list_eqv a a' H) as Hdl.
  pose proof (λ f, weighted_fst _ _ (greedy_bfs_eqv a a' f H)) as Hb.
  pose proof (λ f, weighted_snd _ _ (greedy_bfs_eqv a a' f H)) as Hw.
  break H.
  destruct HG; subst G; simpl;
    [unfold draft2_uzy_named.gen_GreedySurveys
    |unfold euclid_smudge.gen_GreedySurveys];
    (eapply bind_eqv; [exact Hdl|]); intros dl dl' Hdl';
    match goal with E : g_filters a = g_filters a' |- _ => rewrite <- E end;
    apply for_each_eqv; intros filtername; same.
Qed.

Lemma blob_detailer_list_eqv limits limits' :
  Forall2 num_eqv limits limits' →
  result_eqv (Forall2 detailer_eqv) (blob_detailer_list limits) (blob_detailer_list limits').
Proof.
  intros H. unfold blob_detailer_list.
  apply camera_rot_eqv; [assumption|]. intros lo lo' hi hi' Hlo Hhi. same.
Qed.

Ltac same_footprint :=
  eapply (bind_eqv pyval_eqv);
  [apply get_footprint_eqv; assumption
  |let fp := fresh "footprint" in
   let fp' := fresh "footprint'" in
   let Hfp := fresh "Hfootprint" in
   intros fp fp' Hfp].

Lemma twi_blob_bfs_eqv a a' filtername filtername2 :
  twi_args_eqv a a' →
  result_eqv (Forall2 weighted_eqv)
    (twi_blob_bfs a filtername filtername2) (twi_blob_bfs a' filtername filtername2).
Proof.
  intros H. break H. unfold twi_blob_bfs.
  match goal with
  | E : option_Forall2 _ (t_repeat_night_weight a) _ |- _ => destruct E
  end;
  destruct filtername2 as [filtername2|]; cbv zeta;
    eapply (bind_eqv (Forall2 weighted_eqv));
    try (intros bfs bfs' Hbfs; same);
    repeat same_footprint; same.
Qed.

Lemma generate_twi_blobs_eqv G a a' :
  is_script G → twi_args_eqv a a' →
  result_eqv (Forall2 survey_eqv) (generate_twi_blobs_of G a) (generate_twi_blobs_of G a').
Proof.
  intros HG H.
  pose proof (λ f1 f2, twi_blob_bfs_eqv a a' f1 f2 H) as Hbfs.
  break H.
  assert (Hdl : result_eqv (Forall2 detailer_eqv)
                  (blob_detailer_list (t_camera_rot_limits a))
                  (blob_detailer_list (t_camera_rot_limits a')))
    by (apply blob_detailer_list_eqv; assumption).
  destruct HG; subst G; simpl;
    [unfold draft2_uzy_named.generate_twi_blobs
    |unfold euclid_smudge.generate_twi_blobs];
    repeat match goal with
           | E : t_filter1s a = t_filter1s a' |- _ => rewrite <- E; clear E
           | E : t_filter2s a = t_filter2s a' |- _ => rewrite <- E; clear E
           end;
    apply for_each_eqv; intros [filtername filtername2];
    (eapply bind_eqv; [exact Hdl|]); intros dl dl' Hdl';
    (eapply bind_eqv; [apply Hbfs|]); intros bfs bfs' Hb;
    pose proof (weighted_fst _ _ Hb); pose proof (weighted_snd _ _ Hb);
    unfold twi_detailer_tail; destruct filtername2; same.
Qed.

Lemma neo_constant_fp_eqv a a' :
  neo_args_eqv a a' → pyval_eqv (neo_constant_fp a) (neo_constant_fp a').
Proof.
  intros H. break H. unfold neo_constant_fp, ecliptic_target.
  match goal with E : n_filters a = n_filters a' |- _ => rewrite <- E; clear E end.
  assert (Hfp : pyval_eqv (VEclipticTarget (n_nside a) (Float 40) (Float 30)
                             (n_footprint_mask a))
                          (VEclipticTarget (n_nside a') (Float 40) (Float 30)
                             (n_footprint_mask a'))) by same.
  assert (Hinit : pyval_eqv (VConstantFootprint []) (VConstantFootprint [])) by same.
  revert Hinit. generalize (VConstantFootprint []) at 1 3.
  generalize (VConstantFootprint []).
  induction (chars (n_filters a)) as [|filtername l IH]; intros fp fp' Hinit; simpl;
    [exact Hinit|].
  apply IH. destruct Hinit; simpl; same.
Qed.

Lemma neo_detailer_list_eqv a a' :
  neo_args_eqv a a' →
  result_eqv (Forall2 detailer_eqv) (neo_detailer_list a) (neo_detailer_list a').
Proof.
  intros H. break H. unfold neo_detailer_list. cbv zeta.
  apply camera_rot_eqv; [assumption|]. intros lo lo' hi hi' Hlo Hhi. same.
Qed.

Lemma neo_bfs_eqv a a' constant_fp constant_fp' filtername :
  neo_args_eqv a a' → pyval_eqv constant_fp constant_fp' →
  Forall2 weighted_eqv (neo_bfs a constant_fp filtername)
                       (neo_bfs a' constant_fp' filtername).
Proof. intros H Hfp. break H. unfold neo_bfs. same. Qed.

Lemma generate_twilight_neo_eqv G a a' :
  is_script G → neo_args_eqv a a' →
  result_eqv (Forall2 survey_eqv)
    (generate_twilight_neo_of G a) (generate_twilight_neo_of G a').
Proof.
  intros HG H.
  pose proof (neo_detailer_list_eqv a a' H) as Hdl.
  pose proof (neo_constant_fp_eqv a a' H) as Hfp.
  pose proof (λ f, weighted_fst _ _
                (neo_bfs_eqv a a' (neo_constant_fp a) (neo_constant_fp a') f H Hfp))
    as Hb.
  pose proof (λ f, weighted_snd _ _
                (neo_bfs_eqv a a' (neo_constant_fp a) (neo_constant_fp a') f H Hfp))
    as Hw.
  break H.
  destruct HG; subst G; simpl;
    [unfold draft2_uzy_named.generate_twilight_neo
    |unfold euclid_smudge.generate_twilight_neo];
    match goal with E : n_filters a = n_filters a' |- _ => rewrite <- E end;
    apply for_each_eqv; intros filtername;
    (eapply bind_eqv; [exact Hdl|]); intros dl dl' Hdl'; same.
Qed.

Lemma template_weights_eqv a a' filtername :
  num_eqv (b_template_weight a) (b_template_weight a') →
  num_eqv (b_u_template_weight a) (b_u_template_weight a') →
  result_eqv num_eqv (getitem (template_weights a) filtername)
                     (getitem (template_weights a') filtername).
Proof.
  intros Ht Hu. unfold getitem, template_weights.
  rewrite !lookup_insert, ?lookup_singleton, ?lookup_empty.
  repeat case_decide; simpl; first [assumption|reflexivity].
Qed.

Ltac same_good_seeing Hgs fn :=
  let E := fresh "Egs" in
  pose proof (Hgs fn) as E; destruct E; cbv zeta.

Lemma blob_bfs_eqv a a' filtername filtername2 :
  blobs_args_eqv a a' →
  result_eqv (Forall2 weighted_eqv)
    (blob_bfs a filtername filtername2) (blob_bfs a' filtername filtername2).
Proof.
  intros H. break H. unfold blob_bfs.
  match goal with
  | E : ∀ k, option_Forall2 _ (b_good_seeing a !! k) _ |- _ => rename E into Hgs
  end.
  pose proof (template_weights_eqv a a') as Htw.
  destruct filtername2 as [filtername2|]; cbv zeta.
  - eapply (bind_eqv (Forall2 weighted_eqv)).
    { same_footprint. eapply (bind_eqv num_eqv); [apply Htw; assumption|].
      intros w w' Hw. same_footprint.
      eapply (bind_eqv num_eqv); [apply Htw; assumption|].
      intros w2 w2' Hw2. same. }
    intros bfs bfs' Hbfs. eapply (bind_eqv (Forall2 weighted_eqv)).
    { eapply (bind_eqv (Forall2 weighted_eqv)).
      - same_good_seeing Hgs filtername; [same_footprint|]; same.
      - intros bfs1 bfs1' Hbfs1.
        same_good_seeing Hgs filtername2; [same_footprint|]; same. }
    intros bfs2 bfs2' Hbfs2. same.
  - eapply (bind_eqv (Forall2 weighted_eqv)).
    { same_footprint. same. }
    intros bfs bfs' Hbfs. eapply (bind_eqv (Forall2 weighted_eqv)).
    { same_good_seeing Hgs filtername; [same_footprint|]; same. }
    intros bfs2 bfs2' Hbfs2. same.
Qed.

Lemma generate_blobs_eqv G a a' :
  is_script G → blobs_args_eqv a a' →
  result_eqv (Forall2 survey_eqv) (generate_blobs_of G a) (generate_blobs_of G a').
Proof.
  intros HG H.
  pose proof (λ f1 f2, blob_bfs_eqv a a' f1 f2 H) as Hbfs.
  break H.
  assert (Hdl : result_eqv (Forall2 detailer_eqv)
                  (blob_detailer_list (b_camera_rot_limits a))
                  (blob_detailer_list (b_camera_rot_limits a')))
    by (apply blob_detailer_list_eqv; assumption).
  destruct HG; subst G; simpl;
    [unfold draft2_uzy_named.generate_blobs
    |unfold euclid_smudge.generate_blobs];
    repeat match goal with
           | E : b_filter1s a = b_filter1s a' |- _ => rewrite <- E; clear E
           | E : b_filter2s a = b_filter2s a' |- _ => rewrite <- E; clear E
           | E : b_u_nexp1 a = b_u_nexp1 a' |- _ => rename E into Hnexp1
           end;
    apply for_each_eqv; intros [filtername filtername2];
    (eapply bind_eqv; [exact Hdl|]); intros dl dl' Hdl';
    (eapply bind_eqv; [apply Hbfs|]); intros bfs bfs' Hb;
    pose proof (weighted_fst _ _ Hb); pose proof (weighted_snd _ _ Hb);
    unfold blob_detailer_tail; rewrite <- Hnexp1;
    destruct filtername2, (b_u_nexp1 a); same.
Qed.

(** C7.  Each of [gen_GreedySurveys], [generate_blobs],
    [generate_twi_blobs] and [generate_twilight_neo], in either script, is
    deterministic: two calls with equal argument values end alike, and when
    they return, they return the same survey configurations, survey by
    survey: the same basis-function classes with the same parameters, the
    same weights, the same detailers and keyword arguments, in the same
    order. *)
Theorem C7_generators_are_deterministic G :
  is_script G →
  (∀ a a', greedy_args_eqv a a' →
     result_eqv (Forall2 survey_eqv)
       (gen_GreedySurveys_of G a) (gen_GreedySurveys_of G a'))
  ∧ (∀ a a', blobs_args_eqv a a' →
     result_eqv (Forall2 survey_eqv)
       (generate_blobs_of G a) (generate_blobs_of G a'))
  ∧ (∀ a a', twi_args_eqv a a' →
     result_eqv (Forall2 survey_eqv)
       (generate_twi_blobs_of G a) (generate_twi_blobs_of G a'))
  ∧ (∀ a a', neo_args_eqv a a' →
     result_eqv (Forall2 survey_eqv)
       (generate_twilight_neo_of G a) (generate_twilight_neo_of G a')).
Proof.
  intros HG. repeat split; intros a a' H.
  - exact (gen_GreedySurveys_eqv G a a' HG H).
  - exact (generate_blobs_eqv G a a' HG H).
  - exact (generate_twi_blobs_eqv G a a' HG H).
  - exact (generate_twilight_neo_eqv G a a' HG H).
Qed.

Lemma C7_witness :
  result_eqv (Forall2 survey_eqv)
    (draft2_uzy_named.gen_GreedySurveys greedy_defaults)
    (draft2_uzy_named.gen_GreedySurveys greedy_ints).
Proof.
  apply (proj1 (C7_generators_are_deterministic draft2_uzy_named.generators
                  (or_introl eq_refl)) greedy_defaults greedy_ints).
  unfold greedy_args_eqv. simpl. same.
Defined.
